(** * pandas-plink: a shallow embedding of [pandas_plink/read.py]

    The development follows the Python 3 branch of the module
    ([PY3 = True], so [_ord] is the identity on the integers obtained by
    indexing a [bytes] object).  Python values that reach the functions of
    the module are paths, which are either [str] or [bytes]; files are
    byte sequences; everything the module calls outside of itself
    ([open], [pandas.read_csv], the native [read_bed]) is an event of an
    explicit trace, answered by a [world]. *)

From Stdlib Require Import NArith ZArith Ascii String List Lia.
From Stdlib.Strings Require Import Byte.
From stdpp Require Import base option list strings gmap sorting.

Local Open Scope N_scope.

(** ** Python strings and bytes *)

(** A Python [str] is a sequence of Unicode code points. *)
Definition pystr : Type := list N.

(** A [str] literal of the source, written with ASCII characters only. *)
Definition lit (s : string) : pystr := N_of_ascii <$> list_ascii_of_string s.

Definition byte_of_N (n : N) : byte :=
  match Byte.of_N (n mod 256) with
  | Some b => b
  | None => "000"%byte
  end.

Inductive pyobj : Type :=
| PyStr (s : pystr)
| PyBytes (b : list byte).

Global Instance byte_eq_dec : EqDecision byte.
Proof. exact Byte.byte_eq_dec. Defined.

Global Instance pyobj_eq_dec : EqDecision pyobj.
Proof. solve_decision. Defined.

(** ** Exceptions and results *)

Inductive exn : Type :=
| ValueError (msg : pystr)
| IndexError
| KeyError (key : string)
| FileNotFoundError (fn : pyobj)
| UnicodeEncodeError (pos : nat)
| TruncatedFile
| ParserError (msg : pystr).

Inductive result (A : Type) : Type :=
| Ok (a : A)
| Raise (e : exn).
Arguments Ok {A} a.
Arguments Raise {A} e.

Definition rbind {A B} (r : result A) (k : A → result B) : result B :=
  match r with
  | Ok a => k a
  | Raise e => Raise e
  end.

Definition is_ok {A} (r : result A) : bool :=
  match r with Ok _ => true | Raise _ => false end.

(** ** [str.encode()]: the UTF-8 codec, in strict mode *)

Definition utf8_char (pos : nat) (c : N) : result (list byte) :=
  if c <? 0x80 then Ok [byte_of_N c]
  else if c <? 0x800 then
    Ok [byte_of_N (N.lor 0xC0 (N.shiftr c 6));
        byte_of_N (N.lor 0x80 (N.land c 0x3F))]
  else if (0xD800 <=? c) && (c <=? 0xDFFF) then Raise (UnicodeEncodeError pos)
  else if c <? 0x10000 then
    Ok [byte_of_N (N.lor 0xE0 (N.shiftr c 12));
        byte_of_N (N.lor 0x80 (N.land (N.shiftr c 6) 0x3F));
        byte_of_N (N.lor 0x80 (N.land c 0x3F))]
  else if c <? 0x110000 then
    Ok [byte_of_N (N.lor 0xF0 (N.shiftr c 18));
        byte_of_N (N.lor 0x80 (N.land (N.shiftr c 12) 0x3F));
        byte_of_N (N.lor 0x80 (N.land (N.shiftr c 6) 0x3F));
        byte_of_N (N.lor 0x80 (N.land c 0x3F))]
  else Raise (UnicodeEncodeError pos).

Fixpoint str_encode_from (pos : nat) (s : pystr) : result (list byte) :=
  match s with
  | [] => Ok []
  | c :: s' =>
      rbind (utf8_char pos c) (λ bs,
      rbind (str_encode_from (S pos) s') (λ rest, Ok (bs ++ rest)))
  end.

Definition str_encode (s : pystr) : result (list byte) := str_encode_from 0 s.

(** ** [repr] of a [bytes] object, which is what [%s] shows for it *)

Definition hex_digit (n : N) : N :=
  if n <? 10 then 48 + n else 87 + n.

Definition repr_byte (quote : N) (b : byte) : pystr :=
  let c := Byte.to_N b in
  if (c =? quote) || (c =? 92) then [92; c]
  else if c =? 9 then lit "\t"
  else if c =? 10 then lit "\n"
  else if c =? 13 then lit "\r"
  else if (c <? 32) || (127 <=? c) then
    lit "\x" ++ [hex_digit (N.shiftr c 4); hex_digit (N.land c 15)]
  else [c].

Definition has_byte (c : N) (bs : list byte) : bool :=
  existsb (λ b, Byte.to_N b =? c) bs.

Definition bytes_repr (bs : list byte) : pystr :=
  let quote := if has_byte 39 bs && negb (has_byte 34 bs) then 34 else 39 in
  lit "b" ++ [quote] ++ concat (repr_byte quote <$> bs) ++ [quote].

(** [fmt % v] for a format with a single [%s]: [pre ++ str(v) ++ post]. *)
Definition py_str (v : pyobj) : pystr :=
  match v with
  | PyStr s => s
  | PyBytes b => bytes_repr b
  end.

Definition format_s (pre : string) (v : pyobj) (post : string) : pystr :=
  lit pre ++ py_str v ++ lit post.


(** ** Arrays and data frames *)

(** The array the native decoder returns: [nd_rows * nd_cols] calls in
    row-major order. *)
Record ndarray : Type := {
  nd_rows : nat;
  nd_cols : nat;
  nd_data : list N
}.

Inductive dtype : Type := DBytes | DFloat | DInt | DStr | DCategory.

(** A table cell.  A float is carried as its IEEE-754 bit pattern: the
    module never computes with it. *)
Inductive cell : Type :=
| CText (s : pystr)
| CInt (z : Z)
| CFloat (bits : N).

Global Instance dtype_eq_dec : EqDecision dtype.
Proof. solve_decision. Defined.
Global Instance cell_eq_dec : EqDecision cell.
Proof. solve_decision. Defined.

Record row : Type := {
  r_index : list cell;   (* the row's index key *)
  r_cols : list cell     (* its cells, one per column *)
}.

Record DataFrame : Type := {
  df_index_names : list string;
  df_columns : list (string * dtype);
  df_rows : list row
}.

(** [df.shape[0]] *)
Definition df_shape0 (df : DataFrame) : nat := length (df_rows df).

Definition col_pos (name : string) (cols : list (string * dtype)) : option nat :=
  fst <$> list_find (λ c, c.1 = name) cols.

Fixpoint col_positions (names : list string) (cols : list (string * dtype))
  : result (list nat) :=
  match names with
  | [] => Ok []
  | n :: names' =>
      match col_pos n cols with
      | Some p => rbind (col_positions names' cols) (λ ps, Ok (p :: ps))
      | None => Raise (KeyError n)
      end
  end.

Definition pick {A} (ps : list nat) (l : list A) : list A :=
  omap (λ p, l !! p) ps.

Definition drop_at {A} (ps : list nat) (l : list A) : list A :=
  snd <$> filter (λ ix, ix.1 ∉ ps) (imap (λ i x, (i, x)) l).

Definition set_index_row (ps : list nat) (r : row) : row :=
  {| r_index := pick ps (r_cols r); r_cols := drop_at ps (r_cols r) |}.

(** [df.set_index(keys)]: the key columns become the index. *)
Definition df_set_index (keys : list string) (df : DataFrame) : result DataFrame :=
  rbind (col_positions keys (df_columns df)) (λ ps,
  Ok {| df_index_names := keys;
        df_columns := drop_at ps (df_columns df);
        df_rows := set_index_row ps <$> df_rows df |}).

(** [df[name] = df[name].astype('category')]: the values stay, the
    column's dtype changes. *)
Definition df_astype_category (name : string) (df : DataFrame) : result DataFrame :=
  match col_pos name (df_columns df) with
  | Some p =>
      Ok {| df_index_names := df_index_names df;
            df_columns := alter (λ c, (c.1, DCategory)) p (df_columns df);
            df_rows := df_rows df |}
  | None => Raise (KeyError name)
  end.

Definition append_cell (c : cell) (r : row) : row :=
  {| r_index := r_index r; r_cols := r_cols r ++ [c] |}.

(** [df[name] = range(df.shape[0])] for a column name that is new to the
    frame, as ['i'] is in both readers. *)
Definition df_setitem_range (name : string) (df : DataFrame) : DataFrame :=
  {| df_index_names := df_index_names df;
     df_columns := df_columns df ++ [(name, DInt)];
     df_rows := imap (λ k r, append_cell (CInt (Z.of_nat k)) r) (df_rows df) |}.

Fixpoint pystr_leb (s t : pystr) : bool :=
  match s, t with
  | [], _ => true
  | _ :: _, [] => false
  | a :: s', b :: t' => (a <? b) || ((a =? b) && pystr_leb s' t')
  end.

Definition cell_rank (c : cell) : N :=
  match c with CInt _ => 0 | CFloat _ => 1 | CText _ => 2 end.

Definition cell_leb (c d : cell) : bool :=
  match c, d with
  | CInt x, CInt y => (x <=? y)%Z
  | CFloat x, CFloat y => x <=? y
  | CText s, CText t => pystr_leb s t
  | _, _ => cell_rank c <=? cell_rank d
  end.

Fixpoint index_leb (k l : list cell) : bool :=
  match k, l with
  | [], _ => true
  | _ :: _, [] => false
  | c :: k', d :: l' =>
      if decide (c = d) then index_leb k' l' else cell_leb c d
  end.

Definition row_le (r s : row) : Prop := index_leb (r_index r) (r_index s) = true.

Global Instance row_le_dec : RelDecision row_le.
Proof. intros r s. unfold row_le. apply _. Defined.

(** [df.sort_index()]: the rows in the order of their index keys. *)
Definition df_sort_index (df : DataFrame) : DataFrame :=
  {| df_index_names := df_index_names df;
     df_columns := df_columns df;
     df_rows := merge_sort row_le (df_rows df) |}.

(** The cells of one column, top to bottom. *)
Definition df_column (name : string) (df : DataFrame) : list cell :=
  match col_pos name (df_columns df) with
  | Some p => omap (λ r, r_cols r !! p) (df_rows df)
  | None => []
  end.

(** ** The world outside the module, and the trace of calls into it *)

Record world : Type := {
  (* the content of the file at a path; [None]: no such file *)
  fs_bytes : pyobj → option (list byte);
  (* pandas.read_csv on a headerless whitespace-delimited file: the
     records in file order, one cell per name, or the parser's error *)
  csv_records : pyobj → list (string * dtype) → result (list (list cell));
  (* the native decoder of the package, [_bed_read.read_bed] *)
  native_read_bed : pyobj → nat → nat → result ndarray
}.

Inductive event : Type :=
| EvOpen (fn : pyobj)
| EvReadCsv (fn : pyobj)
| EvReadBed (fn : pyobj) (nrows ncols : nat)
| EvDiag (msg : pystr)
| EvDiagElapsed.

Global Instance event_eq_dec : EqDecision event.
Proof. solve_decision. Defined.

(** Computations: a trace of events that grows, and a result. *)
Definition M (A : Type) : Type := list event → list event * result A.

Definition ret {A} (a : A) : M A := λ tr, (tr, Ok a).
Definition raise {A} (e : exn) : M A := λ tr, (tr, Raise e).
Definition lift {A} (r : result A) : M A := λ tr, (tr, r).
Definition emit (e : event) : M unit := λ tr, (tr ++ [e], Ok tt).
Definition bind {A B} (m : M A) (k : A → M B) : M B :=
  λ tr, match m tr with
        | (tr', Ok a) => k a tr'
        | (tr', Raise e) => (tr', Raise e)
        end.

Notation "'let*' x ':=' m 'in' k" := (bind m (λ x, k))
  (at level 10, x pattern, m at level 100, k at level 200,
   only parsing).

Definition run {A} (m : M A) : list event * result A := m [].

(** The path an event touches. *)
Definition event_path (e : event) : option pyobj :=
  match e with
  | EvOpen fn | EvReadCsv fn | EvReadBed fn _ _ => Some fn
  | EvDiag _ | EvDiagElapsed => None
  end.

Definition paths_of (tr : list event) : list pyobj := omap event_path tr.

Definition is_diag (e : event) : bool :=
  match e with EvDiag _ | EvDiagElapsed => true | _ => false end.

(** ** Binary files *)

Record file : Type := { f_data : list byte; f_pos : nat }.

(** [f.read(n)]: at most [n] bytes from the current position. *)
Definition f_read (n : nat) (f : file) : list byte * file :=
  let chunk := take n (drop (f_pos f) (f_data f)) in
  (chunk, {| f_data := f_data f; f_pos := f_pos f + length chunk |}).

(** [f.seek(p)] *)
Definition f_seek (p : nat) (f : file) : file :=
  {| f_data := f_data f; f_pos := p |}.

(** [arr[i]] on a bytes object. *)
Definition bytes_getitem (arr : list byte) (i : nat) : result N :=
  match arr !! i with
  | Some b => Ok (Byte.to_N b)
  | None => Raise IndexError
  end.

(** [d[k]] on a dict. *)
Definition dict_getitem (d : gmap string pyobj) (k : string) : result pyobj :=
  match d !! k with
  | Some v => Ok v
  | None => Raise (KeyError k)
  end.

(** ** The module [pandas_plink/read.py] *)

(** [_ord = lambda x: x] *)
Definition _ord (x : N) : N := x.

(** Modelled from the spec: [TimeIt], the context manager of
    [pandas_plink/_timeit.py], which is not among the sources.  The spec
    gives it one effect: unless disabled it reports progress and timing
    to a diagnostic stream.  The body runs between the two reports; an
    exception of the body propagates. *)
Definition TimeIt {A} (desc : pystr) (disable : bool) (body : M A) : M A :=
  let* _ := (if disable then ret tt else emit (EvDiag desc)) in
  let* r := body in
  let* _ := (if disable then ret tt else emit EvDiagElapsed) in
  ret r.

Definition _ascii_airlock (v : pyobj) : result pyobj :=
  match v with
  | PyBytes _ => Ok v
  | PyStr s => rbind (str_encode s) (λ b, Ok (PyBytes b))
  end.

Section Read.
Variable w : world.

(** [open(fn, "rb")] *)
Definition py_open_rb (fn : pyobj) : M file :=
  let* _ := emit (EvOpen fn) in
  match fs_bytes w fn with
  | Some data => ret {| f_data := data; f_pos := 0 |}
  | None => raise (FileNotFoundError fn)
  end.

(** [pd.read_csv(fn, delim_whitespace=True, header=None, names=...,
    dtype=..., index_col=...)] *)
Definition pd_read_csv (fn : pyobj) (header : list (string * dtype))
    (index_col : list string) : M DataFrame :=
  let* _ := emit (EvReadCsv fn) in
  let* recs := lift (csv_records w fn header) in
  let df := {| df_index_names := [];
               df_columns := header;
               df_rows := imap (λ k rec, {| r_index := [CInt (Z.of_nat k)];
                                            r_cols := rec |}) recs |} in
  match index_col with
  | [] => ret df
  | _ => lift (df_set_index index_col df)
  end.

(** [read_bed(fn, nrows, ncols)] of [_bed_read] *)
Definition read_bed (fn : pyobj) (nrows ncols : nat) : M ndarray :=
  let* _ := emit (EvReadBed fn nrows ncols) in
  lift (native_read_bed w fn nrows ncols).

Definition _check_bed_header (fn : pyobj) : M unit :=
  let* f := py_open_rb fn in
  let '(arr, f) := f_read 2 f in
  let* a0 := lift (bytes_getitem arr 0) in
  let* ok :=
    (if _ord a0 =? 108
     then let* a1 := lift (bytes_getitem arr 1) in ret (_ord a1 =? 27)
     else ret false) in
  if negb ok
  then raise (ValueError (format_s "Invalid BED file: " fn "."))
  else ret tt.

Definition _major_order (fn : pyobj) : M pystr :=
  let* f := py_open_rb fn in
  let f := f_seek 2 f in
  let '(arr, f) := f_read 1 f in
  let* a := lift (bytes_getitem arr 0) in
  if _ord a =? 1 then ret (lit "snp")
  else
    let* a := lift (bytes_getitem arr 0) in
    if _ord a =? 0 then ret (lit "individual")
    else raise (ValueError (lit "Couldn't understand matrix layout.")).

Definition _read_bed (fn : pyobj) (nsamples nmarkers : nat) : M ndarray :=
  let* fn := lift (_ascii_airlock fn) in
  let* _ := _check_bed_header fn in
  let* major := _major_order fn in
  let ncols := if decide (major = lit "individual") then nmarkers else nsamples in
  let nrows := if decide (major = lit "snp") then nmarkers else nsamples in
  read_bed fn nrows ncols.

Definition bim_header : list (string * dtype) :=
  [("chrom", DBytes); ("snp", DBytes); ("cm", DFloat);
   ("pos", DInt); ("a0", DBytes); ("a1", DBytes)]%string.

Definition _read_bim (fn : pyobj) : M DataFrame :=
  let header := bim_header in
  let* df := pd_read_csv fn header [] in
  let* df := lift (df_astype_category "chrom" df) in
  let* df := lift (df_astype_category "a0" df) in
  let* df := lift (df_astype_category "a1" df) in
  let df := df_setitem_range "i" df in
  let* df := lift (df_set_index ["chrom"; "pos"]%string df) in
  let df := df_sort_index df in
  ret df.

Definition fam_header : list (string * dtype) :=
  [("fid", DStr); ("iid", DStr); ("father", DStr);
   ("mother", DStr); ("gender", DBytes); ("trait", DStr)]%string.

Definition _read_fam (fn : pyobj) : M DataFrame :=
  let header := fam_header in
  let* df := pd_read_csv fn header ["fid"; "iid"]%string in
  let* df := lift (df_astype_category "gender" df) in
  let df := df_setitem_range "i" df in
  let df := df_sort_index df in
  ret df.

(** [{s: "%s.%s" % (file_prefix, s) for s in ['bed', 'bim', 'fam']}] *)
Definition fn_dict (file_prefix : pyobj) : gmap string pyobj :=
  foldl (λ d s, <[s := PyStr (py_str file_prefix ++ lit "." ++ lit s)]> d)
        ∅ ["bed"; "bim"; "fam"]%string.

Definition read_plink (file_prefix : pyobj) (verbose : bool)
  : M (DataFrame * DataFrame * ndarray) :=
  let fn := fn_dict file_prefix in
  let* p := lift (dict_getitem fn "bim") in
  let* bim := TimeIt (format_s "Reading " p "...") (negb verbose)
                (let* p := lift (dict_getitem fn "bim") in _read_bim p) in
  let nmarkers := df_shape0 bim in
  let* p := lift (dict_getitem fn "fam") in
  let* fam := TimeIt (format_s "Reading " p "...") (negb verbose)
                (let* p := lift (dict_getitem fn "fam") in _read_fam p) in
  let nsamples := df_shape0 fam in
  let* p := lift (dict_getitem fn "bed") in
  let* bed := TimeIt (format_s "Reading " p "...") (negb verbose)
                (let* p := lift (dict_getitem fn "bed") in
                 _read_bed p nsamples nmarkers) in
  ret (bim, fam, bed).
End Read.

(** ** The bit-unpacking codec *)

Inductive orientation : Type := SnpMajor | IndividualMajor.

(** Modelled from the spec: the 4-way mapping of 2-bit codes to genotype
    calls of the native decoder [_bed_read], which is not among the
    sources: 0b00 to 2, 0b10 to 1, 0b11 to 0, 0b01 to the sentinel 3. *)
Definition code_to_call (code : N) : N :=
  match code with
  | 0 => 2
  | 2 => 1
  | 3 => 0
  | _ => 3
  end.

(** The inverse of the mapping, as the round-trip law names it. *)
Definition call_to_code (call : N) : N :=
  match call with
  | 2 => 0
  | 1 => 2
  | 0 => 3
  | _ => 1
  end.

(** Modelled from the spec: genotypes are packed 4 per byte, 2 bits each,
    least-significant pair first. *)
Definition unpack_byte (b : byte) : list N :=
  let n := Byte.to_N b in
  [N.land n 3; N.land (N.shiftr n 2) 3;
   N.land (N.shiftr n 4) 3; N.land (N.shiftr n 6) 3].

Definition pack4 (a b c d : N) : byte :=
  byte_of_N (N.lor (N.lor a (N.shiftl b 2))
                   (N.lor (N.shiftl c 4) (N.shiftl d 6))).

(** Modelled from the spec: [bytes_per_row = ceil(num_cols / 4)]. *)
Definition bytes_per_row (ncols : nat) : nat := (ncols + 3) / 4.

(** Modelled from the spec: one physical row; the codes past [ncols] are
    padding and are not read. *)
Definition decode_row (ncols : nat) (bs : list byte) : list N :=
  code_to_call <$> take ncols (concat (unpack_byte <$> bs)).

Fixpoint decode_rows (nrows ncols : nat) (payload : list byte) : list N :=
  match nrows with
  | O => []
  | S n =>
      decode_row ncols (take (bytes_per_row ncols) payload)
      ++ decode_rows n ncols (drop (bytes_per_row ncols) payload)
  end.

(** Modelled from the spec: the decode of the payload that follows the
    3-byte header, in physical orientation.  A payload shorter than
    [bytes_per_row * nrows] fails with [TruncatedFile]; bytes past the
    expected extent are not read. *)
Definition decode_physical (nrows ncols : nat) (payload : list byte)
  : result ndarray :=
  if (length payload <? bytes_per_row ncols * nrows)%nat
  then Raise TruncatedFile
  else Ok {| nd_rows := nrows; nd_cols := ncols;
             nd_data := decode_rows nrows ncols payload |}.

(** Modelled from the spec: the GenotypeMatrix, of logical shape
    [(num_markers, num_samples)], stored row-major in the orientation the
    file declares and read through an accessor that swaps the
    coordinates for individual-major storage. *)
Record GenotypeMatrix : Type := {
  gm_orientation : orientation;
  gm_markers : nat;
  gm_samples : nat;
  gm_store : list N
}.

Definition gm_get (g : GenotypeMatrix) (m s : nat) : N :=
  match gm_orientation g with
  | SnpMajor => nth (m * gm_samples g + s) (gm_store g) 3
  | IndividualMajor => nth (s * gm_markers g + m) (gm_store g) 3
  end.

Definition physical_dims (o : orientation) (num_samples num_markers : nat)
  : nat * nat :=
  match o with
  | SnpMajor => (num_markers, num_samples)
  | IndividualMajor => (num_samples, num_markers)
  end.

Definition decode (o : orientation) (num_samples num_markers : nat)
    (payload : list byte) : result GenotypeMatrix :=
  let '(nrows, ncols) := physical_dims o num_samples num_markers in
  rbind (decode_physical nrows ncols payload) (λ a,
  Ok {| gm_orientation := o; gm_markers := num_markers;
        gm_samples := num_samples; gm_store := nd_data a |}).

(** Re-encoding, the inverse direction: every cell of the matrix goes
    through [call_to_code], four codes to a byte, each physical row
    padded with zero bits to a whole byte. *)
Fixpoint pack_codes (cs : list N) : list byte :=
  match cs with
  | [] => []
  | [a] => [pack4 a 0 0 0]
  | [a; b] => [pack4 a b 0 0]
  | [a; b; c] => [pack4 a b c 0]
  | a :: b :: c :: d :: rest => pack4 a b c d :: pack_codes rest
  end.

Definition physical_cell (g : GenotypeMatrix) (r c : nat) : N :=
  match gm_orientation g with
  | SnpMajor => gm_get g r c
  | IndividualMajor => gm_get g c r
  end.

Definition encode_row (g : GenotypeMatrix) (ncols r : nat) : list byte :=
  pack_codes (call_to_code <$> (physical_cell g r <$> seq 0 ncols)).

Definition encode (g : GenotypeMatrix) : list byte :=
  let '(nrows, ncols) :=
    physical_dims (gm_orientation g) (gm_samples g) (gm_markers g) in
  concat (encode_row g ncols <$> seq 0 nrows).

(** The payload with its padding bits cleared and its excess dropped:
    of each row's bytes, the first [ncols] codes stay. *)
Definition keep_codes (k : nat) (b : byte) : byte :=
  byte_of_N (N.land (Byte.to_N b) (N.ones (2 * N.of_nat k))).

Fixpoint clear_pad_row (ncols : nat) (bs : list byte) : list byte :=
  match bs with
  | [] => []
  | b :: bs' => keep_codes (min 4 ncols) b :: clear_pad_row (ncols - 4) bs'
  end.

Fixpoint clear_pad (nrows ncols : nat) (payload : list byte) : list byte :=
  match nrows with
  | O => []
  | S n =>
      clear_pad_row ncols (take (bytes_per_row ncols) payload)
      ++ clear_pad n ncols (drop (bytes_per_row ncols) payload)
  end.

(** The 2-bit code stored for physical cell [(r, c)]. *)
Definition code_at (ncols : nat) (payload : list byte) (r c : nat) : option N :=
  b ← payload !! (r * bytes_per_row ncols + c / 4)%nat;
  Some (N.land (N.shiftr (Byte.to_N b) (2 * N.of_nat (c mod 4))) 3).

(** Modelled from the spec: the native [read_bed(fn, nrows, ncols)], which
    decodes what follows the 3-byte header of the file. *)
Definition spec_read_bed (files : pyobj → option (list byte))
    (fn : pyobj) (nrows ncols : nat) : result ndarray :=
  match files fn with
  | Some data => decode_physical nrows ncols (drop 3 data)
  | None => Raise (FileNotFoundError fn)
  end.

(** ** Notions the properties are stated with *)

(** A computation is regular when the events it adds and its result do
    not depend on the trace so far. *)
Definition regular {A} (m : M A) : Prop :=
  ∀ tr, m tr = (tr ++ (run m).1, (run m).2).

(** What is left of a trace without the diagnostic stream. *)
Definition quiet (tr : list event) : list event :=
  filter (λ e, is_diag e = false) tr.

(** Two computations that differ on the diagnostic stream only. *)
Definition quiet_equiv {A} (m1 m2 : M A) : Prop :=
  ∀ tr1 tr2, quiet tr1 = quiet tr2 →
    quiet (m1 tr1).1 = quiet (m2 tr2).1 ∧ (m1 tr1).2 = (m2 tr2).2.

(** The path [read_plink] derives for a suffix: ["%s.%s" % (prefix, s)]. *)
Definition plink_path (prefix : pystr) (s : string) : pyobj :=
  PyStr (prefix ++ lit "." ++ lit s).

(** A parse is well formed when every record has one cell per name. *)
Definition csv_well_formed (w : world) : Prop :=
  ∀ fn header recs, csv_records w fn header = Ok recs →
    Forall (λ rec, length rec = length header) recs.

(** Re-encoding a row-major store of [nrows * ncols] calls. *)
Definition encode_store (nrows ncols : nat) (data : list N) : list byte :=
  concat ((λ r, pack_codes (call_to_code <$> take ncols (drop (r * ncols) data)))
            <$> seq 0 nrows).

(** [needle in hay] on strings. *)
Fixpoint starts_with (needle hay : pystr) : bool :=
  match needle, hay with
  | [], _ => true
  | _ :: _, [] => false
  | a :: n', b :: h' => (a =? b) && starts_with n' h'
  end.

Fixpoint str_contains (needle hay : pystr) : bool :=
  starts_with needle hay ||
  match hay with
  | [] => false
  | _ :: h' => str_contains needle h'
  end.

(** ** A small PLINK file set, for running the module

    Three markers, two samples, stored snp-major under the prefix [toy];
    the marker file is not in index order, so sorting moves its rows. *)
Module Toy.
Definition prefix : pystr := lit "toy".
Definition bed : pyobj := PyBytes (list_byte_of_string "toy.bed").
Definition bim : pyobj := PyStr (lit "toy.bim").
Definition fam : pyobj := PyStr (lit "toy.fam").

Definition payload : list byte := ["216"; "027"; "002"]%byte.

Definition bed_bytes (orientation_byte : byte) : list byte :=
  ["108"; "027"; orientation_byte]%byte ++ payload.

Definition bim_records : list (list cell) :=
  [ [CText (lit "2"); CText (lit "rs3"); CFloat 0; CInt 500;
     CText (lit "A"); CText (lit "C")];
    [CText (lit "1"); CText (lit "rs2"); CFloat 0; CInt 200;
     CText (lit "G"); CText (lit "T")];
    [CText (lit "1"); CText (lit "rs1"); CFloat 0; CInt 100;
     CText (lit "A"); CText (lit "G")] ].

Definition fam_records : list (list cell) :=
  [ [CText (lit "F2"); CText (lit "I2"); CText (lit "0"); CText (lit "0");
     CText (lit "2"); CText (lit "-9")];
    [CText (lit "F1"); CText (lit "I1"); CText (lit "0"); CText (lit "0");
     CText (lit "1"); CText (lit "-9")] ].

(** The file system holding [content] at the .bed path. *)
Definition files (content : list byte) (p : pyobj) : option (list byte) :=
  if decide (p = bed) then Some content else None.

Definition csv (p : pyobj) (header : list (string * dtype))
  : result (list (list cell)) :=
  if decide (length header = 6%nat) then
    if decide (p = bim) then Ok bim_records
    else if decide (p = fam) then Ok fam_records
    else Raise (FileNotFoundError p)
  else Raise (ParserError (lit "expected 6 fields")).

Definition world_with (content : list byte) : world :=
  {| fs_bytes := files content;
     csv_records := csv;
     native_read_bed := spec_read_bed (files content) |}.

Definition w : world := world_with (bed_bytes "001").

(** The marker table [_read_bim] returns in this world. *)
Definition bim_table : DataFrame :=
  Eval vm_compute in
    match (run (_read_bim w bim)).2 with
    | Ok df => df
    | Raise _ => {| df_index_names := []; df_columns := []; df_rows := [] |}
    end.
End Toy.


(** * Properties *)

(** ** The model at work *)

Example str_encode_utf8 :
  str_encode [0x74; 0xE9; 0x20AC; 0x1F600]
  = Ok ["t"; "195"; "169"; "226"; "130"; "172"; "240"; "159"; "152"; "128"]%byte.
Proof. reflexivity. Qed.

Example str_encode_surrogate :
  str_encode [0x74; 0xDC80] = Raise (UnicodeEncodeError 1).
Proof. reflexivity. Qed.

Example bytes_repr_escapes :
  bytes_repr ["a"; "039"; "092"; "010"; "255"]%byte
  = [98; 34; 97; 39; 92; 92; 92; 110; 92; 120; 102; 102; 34].
Proof. reflexivity. Qed.

Example unpack_byte_216 :
  unpack_byte "216" = [0; 2; 1; 3]
  ∧ code_to_call <$> unpack_byte "216" = [2; 1; 3; 0].
Proof. split; reflexivity. Qed.

Example toy_read_plink_genotypes :
  (λ t, nd_data t.2) <$> (match (run (read_plink Toy.w (PyStr Toy.prefix) false)).2
                          with Ok t => Some t | Raise _ => None end)
  = Some [2; 1; 0; 1; 1; 2].
Proof. reflexivity. Qed.

Example toy_truncated :
  (run (read_plink (Toy.world_with ["108"; "027"; "001"; "216"]%byte)
          (PyStr Toy.prefix) false)).2
  = Raise TruncatedFile.
Proof. reflexivity. Qed.

(** ** Running single steps *)

Lemma bind_ok {A B} (m : M A) (k : A → M B) tr tr' a :
  m tr = (tr', Ok a) → bind m k tr = k a tr'.
Proof. unfold bind. by intros ->. Qed.

Lemma py_open_rb_found w fn data tr :
  fs_bytes w fn = Some data →
  py_open_rb w fn tr = (tr ++ [EvOpen fn], Ok {| f_data := data; f_pos := 0 |}).
Proof. intros H. unfold py_open_rb, bind, emit, ret. by rewrite H. Qed.

(** ** The header validator *)

Lemma check_bed_header_run (w : world) (fn : pyobj) (b0 b1 : byte)
    (rest : list byte) (tr : list event) :
  fs_bytes w fn = Some (b0 :: b1 :: rest) →
  _check_bed_header w fn tr =
    (tr ++ [EvOpen fn],
     if decide ((Byte.to_N b0, Byte.to_N b1) = (0x6C, 0x1B)) then Ok tt
     else Raise (ValueError (format_s "Invalid BED file: " fn "."))).
Proof.
  intros Hfs. unfold _check_bed_header.
  rewrite (bind_ok _ _ _ _ _ (py_open_rb_found _ _ _ _ Hfs)).
  cbn [f_read f_data f_pos drop take]. unfold bind, lift, ret, raise, _ord.
  cbn [bytes_getitem lookup list_lookup].
  destruct (N.eqb_spec (Byte.to_N b0) 108) as [E0|E0];
    [destruct (N.eqb_spec (Byte.to_N b1) 27) as [E1|E1]|]; cbn;
    case_decide as Hd; try done.
  - rewrite E0, E1 in Hd. by destruct Hd.
  - injection Hd as ? ?. done.
  - injection Hd as ? ?. done.
Qed.

(** C1: on a file of at least two bytes [_check_bed_header] returns
    normally when the first two bytes are (0x6C, 0x1B) and raises the
    ValueError "Invalid BED file: ..." for every other pair of bytes. *)
Theorem check_bed_header_magic (w : world) (fn : pyobj) (b0 b1 : byte)
    (rest : list byte) (tr : list event) :
  fs_bytes w fn = Some (b0 :: b1 :: rest) →
  ((Byte.to_N b0, Byte.to_N b1) = (0x6C, 0x1B) →
   _check_bed_header w fn tr = (tr ++ [EvOpen fn], Ok tt))
  ∧ ((Byte.to_N b0, Byte.to_N b1) ≠ (0x6C, 0x1B) →
     _check_bed_header w fn tr =
       (tr ++ [EvOpen fn],
        Raise (ValueError (format_s "Invalid BED file: " fn ".")))).
Proof.
  intros Hfs. rewrite (check_bed_header_run w fn b0 b1 rest tr Hfs).
  split; intros Hm; case_decide; done.
Qed.

Lemma check_bed_header_magic_witness :
  run (_check_bed_header Toy.w Toy.bed) = ([EvOpen Toy.bed], Ok tt)
  ∧ run (_check_bed_header (Toy.world_with ["108"; "028"; "001"]%byte) Toy.bed)
    = ([EvOpen Toy.bed],
       Raise (ValueError (lit "Invalid BED file: b'toy.bed'."))).
Proof.
  split.
  - exact (proj1 (check_bed_header_magic Toy.w Toy.bed "108" "027"
                    ("001"%byte :: Toy.payload) [] eq_refl) eq_refl).
  - apply (proj2 (check_bed_header_magic
                    (Toy.world_with ["108"; "028"; "001"]%byte) Toy.bed
                    "108" "028" ["001"%byte] [] eq_refl)).
    discriminate.
Defined.

Lemma major_order_run (w : world) (fn : pyobj) (b0 b1 b2 : byte)
    (rest : list byte) (tr : list event) :
  fs_bytes w fn = Some (b0 :: b1 :: b2 :: rest) →
  _major_order w fn tr =
    (tr ++ [EvOpen fn],
     if decide (Byte.to_N b2 = 1) then Ok (lit "snp")
     else if decide (Byte.to_N b2 = 0) then Ok (lit "individual")
     else Raise (ValueError (lit "Couldn't understand matrix layout."))).
Proof.
  intros Hfs. unfold _major_order.
  rewrite (bind_ok _ _ _ _ _ (py_open_rb_found _ _ _ _ Hfs)).
  cbn [f_seek f_read f_data f_pos drop take].
  unfold bind, lift, ret, raise, _ord.
  cbn [bytes_getitem lookup list_lookup].
  destruct (N.eqb_spec (Byte.to_N b2) 1) as [E1|E1];
    [|destruct (N.eqb_spec (Byte.to_N b2) 0) as [E0|E0]];
    repeat case_decide; done.
Qed.

(** C2: on a file of at least three bytes [_major_order] returns ['snp']
    when byte 2 is 1, ['individual'] when it is 0, and raises a ValueError
    for every other value; it raises exactly when byte 2 is neither. *)
Theorem major_order_byte2 (w : world) (fn : pyobj) (b0 b1 b2 : byte)
    (rest : list byte) (tr : list event) :
  fs_bytes w fn = Some (b0 :: b1 :: b2 :: rest) →
  _major_order w fn tr =
    (tr ++ [EvOpen fn],
     if decide (Byte.to_N b2 = 1) then Ok (lit "snp")
     else if decide (Byte.to_N b2 = 0) then Ok (lit "individual")
     else Raise (ValueError (lit "Couldn't understand matrix layout.")))
  ∧ (is_ok (_major_order w fn tr).2 = false
     ↔ Byte.to_N b2 ≠ 0 ∧ Byte.to_N b2 ≠ 1).
Proof.
  intros Hfs. pose proof (major_order_run w fn b0 b1 b2 rest tr Hfs) as Heq.
  split; [exact Heq|]. rewrite Heq. cbn [snd].
  repeat case_decide; cbn; split; try done; intros [? ?]; done.
Qed.

Lemma major_order_byte2_witness :
  run (_major_order Toy.w Toy.bed) = ([EvOpen Toy.bed], Ok (lit "snp")).
Proof.
  exact (proj1 (major_order_byte2 Toy.w Toy.bed "108" "027" "001"
                  Toy.payload [] eq_refl)).
Defined.

(** C9, as stated, fails: a file holding the single byte 0x00 makes the
    first comparison false, the second index is never evaluated, and the
    ValueError of the magic check is raised. *)
Lemma check_bed_header_one_byte_value_error :
  run (_check_bed_header (Toy.world_with ["000"%byte]) Toy.bed) =
    ([EvOpen Toy.bed],
     Raise (ValueError (lit "Invalid BED file: b'toy.bed'."))).
Proof. reflexivity. Qed.

(** C9, amended: on a file of fewer than two bytes [_check_bed_header]
    raises IndexError when the file is empty or its only byte is 0x6C;
    when its only byte is another one, the comparison short-circuits and
    the ValueError of the magic check is raised. *)
Theorem check_bed_header_short_file (w : world) (fn : pyobj)
    (data : list byte) (tr : list event) :
  fs_bytes w fn = Some data →
  (length data < 2)%nat →
  _check_bed_header w fn tr =
    (tr ++ [EvOpen fn],
     match data with
     | [] => Raise IndexError
     | b :: _ =>
         if decide (Byte.to_N b = 0x6C) then Raise IndexError
         else Raise (ValueError (format_s "Invalid BED file: " fn "."))
     end).
Proof.
  intros Hfs Hlen. unfold _check_bed_header.
  rewrite (bind_ok _ _ _ _ _ (py_open_rb_found _ _ _ _ Hfs)).
  destruct data as [|b [|b' data]]; [| |cbn in Hlen; lia].
  - reflexivity.
  - cbn [f_read f_data f_pos drop take]. unfold bind, lift, ret, raise, _ord.
    cbn [bytes_getitem lookup list_lookup].
    destruct (N.eqb_spec (Byte.to_N b) 108) as [E|E]; cbn;
      case_decide; done.
Qed.

Lemma check_bed_header_short_file_witness :
  run (_check_bed_header (Toy.world_with ["108"%byte]) Toy.bed) =
    ([EvOpen Toy.bed], Raise IndexError).
Proof.
  apply (check_bed_header_short_file (Toy.world_with ["108"%byte]) Toy.bed
           ["108"%byte] [] eq_refl).
  cbn. lia.
Defined.

(** C5: the two ValueErrors of a .bed file at the path [toy.bed].  The
    message of the magic check shows the path; the message of the
    orientation check is a fixed text and does not. *)
Theorem invalid_format_messages :
  let bad_magic := Toy.world_with ["000"; "027"; "001"]%byte in
  let bad_layout := Toy.world_with ["108"; "027"; "002"]%byte in
  ∃ msg1 msg2,
    (run (_check_bed_header bad_magic Toy.bed)).2 = Raise (ValueError msg1)
    ∧ str_contains (lit "toy.bed") msg1 = true
    ∧ (run (_major_order bad_layout Toy.bed)).2 = Raise (ValueError msg2)
    ∧ msg2 = lit "Couldn't understand matrix layout."
    ∧ str_contains (lit "toy.bed") msg2 = false.
Proof. do 2 eexists. repeat split; reflexivity. Qed.

(** ** The path airlock *)

(** C10: [_ascii_airlock] returns a bytes argument unchanged, applying
    it twice is applying it once (also when the encoding raises), and
    what it returns is a bytes object. *)
Theorem ascii_airlock_idempotent :
  (∀ b : list byte, _ascii_airlock (PyBytes b) = Ok (PyBytes b))
  ∧ (∀ v : pyobj, rbind (_ascii_airlock v) _ascii_airlock = _ascii_airlock v)
  ∧ (∀ v r : pyobj, _ascii_airlock v = Ok r → ∃ b, r = PyBytes b).
Proof.
  split; [done|]. split.
  - intros [s|b]; [|done]. cbn. by destruct (str_encode s).
  - intros [s|b] r; cbn.
    + destruct (str_encode s) as [b|e]; cbn; [|done].
      intros [= <-]. by exists b.
    + intros [= <-]. by exists b.
Qed.

Lemma ascii_airlock_idempotent_witness :
  _ascii_airlock (PyStr (lit "toy.bed")) = Ok Toy.bed
  ∧ rbind (_ascii_airlock (PyStr (lit "toy.bed"))) _ascii_airlock = Ok Toy.bed
  ∧ ∃ b, Toy.bed = PyBytes b.
Proof.
  destruct ascii_airlock_idempotent as (_ & Hidem & Hbytes).
  split; [reflexivity|]. split.
  - rewrite (Hidem (PyStr (lit "toy.bed"))). reflexivity.
  - exact (Hbytes (PyStr (lit "toy.bed")) Toy.bed eq_refl).
Defined.

(** ** The decoder's dimensions *)

(** C3: behind a valid magic, [_read_bed] calls the decoder with
    [nrows = nmarkers] and [ncols = nsamples] when the file is snp-major
    (byte 2 is 1), and with [nrows = nsamples] and [ncols = nmarkers] when
    it is individual-major (byte 2 is 0); the decoder's answer is the
    result. *)
Theorem read_bed_dimensions (w : world) (fn bfn : pyobj)
    (nsamples nmarkers : nat) (b2 : byte) (rest : list byte)
    (tr : list event) :
  _ascii_airlock fn = Ok bfn →
  fs_bytes w bfn = Some ("108"%byte :: "027"%byte :: b2 :: rest) →
  (Byte.to_N b2 = 1 →
   _read_bed w fn nsamples nmarkers tr =
     (tr ++ [EvOpen bfn; EvOpen bfn; EvReadBed bfn nmarkers nsamples],
      native_read_bed w bfn nmarkers nsamples))
  ∧ (Byte.to_N b2 = 0 →
     _read_bed w fn nsamples nmarkers tr =
       (tr ++ [EvOpen bfn; EvOpen bfn; EvReadBed bfn nsamples nmarkers],
        native_read_bed w bfn nsamples nmarkers)).
Proof.
  intros Hair Hfs.
  pose proof (check_bed_header_run w bfn _ _ _ tr Hfs) as Hhdr.
  cbn in Hhdr.
  pose proof (major_order_run w bfn _ _ _ _ (tr ++ [EvOpen bfn]) Hfs)
    as Hmaj.
  assert (∀ major nrows ncols,
    (if decide (Byte.to_N b2 = 1) then Ok (lit "snp")
     else if decide (Byte.to_N b2 = 0) then Ok (lit "individual")
     else Raise (ValueError (lit "Couldn't understand matrix layout.")))
      = Ok major →
    (if decide (major = lit "individual") then nmarkers else nsamples) = ncols →
    (if decide (major = lit "snp") then nmarkers else nsamples) = nrows →
    _read_bed w fn nsamples nmarkers tr =
      (tr ++ [EvOpen bfn; EvOpen bfn; EvReadBed bfn nrows ncols],
       native_read_bed w bfn nrows ncols)) as Hrun.
  { intros major nrows ncols Hm Hc Hr. unfold _read_bed.
    rewrite (bind_ok (lift (_ascii_airlock fn)) _ tr tr bfn)
      by (unfold lift; by rewrite Hair).
    rewrite (bind_ok _ _ _ _ _ Hhdr).
    rewrite Hm in Hmaj. rewrite (bind_ok _ _ _ _ _ Hmaj).
    rewrite Hc, Hr. unfold read_bed, bind, emit, lift.
    by rewrite <- !app_assoc. }
  split; intros Hb2.
  - apply (Hrun (lit "snp")); [by rewrite decide_True| |]; by vm_compute.
  - apply (Hrun (lit "individual")).
    + rewrite decide_False by (rewrite Hb2; done). by rewrite decide_True.
    + by vm_compute.
    + by vm_compute.
Qed.

Lemma read_bed_dimensions_witness :
  run (_read_bed Toy.w (PyStr (lit "toy.bed")) 2 3) =
    ([EvOpen Toy.bed; EvOpen Toy.bed; EvReadBed Toy.bed 3 2],
     Ok {| nd_rows := 3; nd_cols := 2; nd_data := [2; 1; 0; 1; 1; 2] |})
  ∧ run (_read_bed (Toy.world_with (Toy.bed_bytes "000"))
           (PyStr (lit "toy.bed")) 2 3) =
    ([EvOpen Toy.bed; EvOpen Toy.bed; EvReadBed Toy.bed 2 3],
     Ok {| nd_rows := 2; nd_cols := 3; nd_data := [2; 1; 3; 0; 1; 3] |}).
Proof.
  split.
  - exact (proj1 (read_bed_dimensions Toy.w (PyStr (lit "toy.bed")) Toy.bed
                    2 3 "001" Toy.payload [] eq_refl eq_refl) eq_refl).
  - exact (proj2 (read_bed_dimensions (Toy.world_with (Toy.bed_bytes "000"))
                    (PyStr (lit "toy.bed")) Toy.bed
                    2 3 "000" Toy.payload [] eq_refl eq_refl) eq_refl).
Defined.

(** ** Computations whose events do not depend on the trace so far *)

Lemma regular_ret {A} (a : A) : regular (ret a).
Proof. intros tr. cbn. by rewrite app_nil_r. Qed.

Lemma regular_raise {A} (e : exn) : regular (@raise A e).
Proof. intros tr. cbn. by rewrite app_nil_r. Qed.

Lemma regular_lift {A} (r : result A) : regular (lift r).
Proof. intros tr. cbn. by rewrite app_nil_r. Qed.

Lemma regular_emit (e : event) : regular (emit e).
Proof. by intros tr. Qed.

Lemma regular_bind {A B} (m : M A) (k : A → M B) :
  regular m → (∀ a, regular (k a)) → regular (bind m k).
Proof.
  intros Hm Hk tr. unfold run, bind. rewrite (Hm tr).
  destruct (run m) as [evs [a|e]] eqn:E; unfold run in E; rewrite E; cbn.
  - rewrite (Hk a (tr ++ evs)), (Hk a evs). cbn. by rewrite app_assoc.
  - done.
Qed.

Create HintDb regular.
#[export] Hint Resolve regular_ret regular_raise regular_lift regular_emit
  : regular.

Ltac regular_step :=
  match goal with
  | |- regular (bind _ _) => apply regular_bind; [|intros ?]
  | |- regular (match ?x with _ => _ end) => destruct x
  | |- regular (if ?b then _ else _) => destruct b
  | |- regular _ => solve [auto with regular]
  end.

Ltac regular_tac := repeat regular_step.

Lemma regular_TimeIt {A} desc disable (body : M A) :
  regular body → regular (TimeIt desc disable body).
Proof. intros Hb. unfold TimeIt. regular_tac. Qed.

Lemma regular_py_open_rb w fn : regular (py_open_rb w fn).
Proof. unfold py_open_rb. regular_tac. Qed.

Lemma regular_check_bed_header w fn : regular (_check_bed_header w fn).
Proof.
  unfold _check_bed_header. apply regular_bind; [apply regular_py_open_rb|].
  intros f. regular_tac.
Qed.

Lemma regular_major_order w fn : regular (_major_order w fn).
Proof.
  unfold _major_order. apply regular_bind; [apply regular_py_open_rb|].
  intros f. regular_tac.
Qed.

Lemma regular_read_bed w fn nsamples nmarkers :
  regular (_read_bed w fn nsamples nmarkers).
Proof.
  unfold _read_bed, read_bed.
  apply regular_bind; [auto with regular|]. intros bfn.
  apply regular_bind; [apply regular_check_bed_header|]. intros _.
  apply regular_bind; [apply regular_major_order|]. intros major.
  regular_tac.
Qed.

Lemma regular_pd_read_csv w fn header index_col :
  regular (pd_read_csv w fn header index_col).
Proof. unfold pd_read_csv. regular_tac. Qed.

Lemma regular_read_bim w fn : regular (_read_bim w fn).
Proof.
  unfold _read_bim. apply regular_bind; [apply regular_pd_read_csv|].
  intros df. regular_tac.
Qed.

Lemma regular_read_fam w fn : regular (_read_fam w fn).
Proof.
  unfold _read_fam. apply regular_bind; [apply regular_pd_read_csv|].
  intros df. regular_tac.
Qed.

#[export] Hint Resolve regular_TimeIt regular_read_bed regular_read_bim
  regular_read_fam : regular.

(** ** The verbose flag *)

Lemma quiet_equiv_regular {A} (m : M A) : regular m → quiet_equiv m m.
Proof.
  intros Hm tr1 tr2 Hq. rewrite (Hm tr1), (Hm tr2). cbn.
  unfold quiet in *. by rewrite !filter_app, Hq.
Qed.

Lemma quiet_equiv_bind {A B} (m1 m2 : M A) (k1 k2 : A → M B) :
  quiet_equiv m1 m2 → (∀ a, quiet_equiv (k1 a) (k2 a)) →
  quiet_equiv (bind m1 k1) (bind m2 k2).
Proof.
  intros Hm Hk tr1 tr2 Hq. unfold bind.
  destruct (Hm tr1 tr2 Hq) as [Htr Hr].
  destruct (m1 tr1) as [tr1' r1], (m2 tr2) as [tr2' r2]. cbn in Htr, Hr.
  subst r2. destruct r1 as [a|e]; [by apply Hk|done].
Qed.

Lemma quiet_equiv_report (d1 d2 : bool) (e1 e2 : event) :
  is_diag e1 = true → is_diag e2 = true →
  quiet_equiv (if d1 then ret tt else emit e1) (if d2 then ret tt else emit e2).
Proof.
  intros H1 H2 tr1 tr2 Hq. unfold quiet in *.
  destruct d1, d2; cbn; rewrite ?filter_app, ?Hq; cbn;
    rewrite ?H1, ?H2; cbn; by rewrite ?app_nil_r.
Qed.

Lemma quiet_equiv_TimeIt {A} desc (d1 d2 : bool) (body : M A) :
  regular body → quiet_equiv (TimeIt desc d1 body) (TimeIt desc d2 body).
Proof.
  intros Hb. unfold TimeIt.
  apply quiet_equiv_bind; [by apply quiet_equiv_report|]. intros _.
  apply quiet_equiv_bind; [by apply quiet_equiv_regular|]. intros r.
  apply quiet_equiv_bind; [by apply quiet_equiv_report|]. intros _.
  apply quiet_equiv_regular. auto with regular.
Qed.

(** C8: for one world and one prefix, [read_plink] returns the same
    triple, or raises the same exception, with [verbose=True] and with
    [verbose=False], and makes the same calls on the same paths; the two
    runs differ in the diagnostic stream only. *)
Theorem read_plink_verbose_noninterference (w : world)
    (file_prefix : pyobj) (tr : list event) :
  (read_plink w file_prefix true tr).2 = (read_plink w file_prefix false tr).2
  ∧ quiet (read_plink w file_prefix true tr).1
    = quiet (read_plink w file_prefix false tr).1.
Proof.
  assert (quiet_equiv (read_plink w file_prefix true)
                      (read_plink w file_prefix false)) as H.
  { unfold read_plink.
    repeat first
      [ apply quiet_equiv_TimeIt; regular_tac
      | apply quiet_equiv_bind; [|intros ?]
      | apply quiet_equiv_regular; solve [auto with regular] ]. }
  destruct (H tr tr eq_refl). done.
Qed.

(** ** The paths [read_plink] reads *)

Lemma run_bind {A B} (m : M A) (k : A → M B) :
  (∀ a, regular (k a)) →
  run (bind m k) =
    match run m with
    | (evs, Ok a) => (evs ++ (run (k a)).1, (run (k a)).2)
    | (evs, Raise e) => (evs, Raise e)
    end.
Proof.
  intros Hk. unfold run at 1, bind. fold (run m).
  destruct (run m) as [evs [a|e]]; [apply Hk|done].
Qed.

Lemma run_bind_lift {A B} (r : result A) (k : A → M B) :
  run (bind (lift r) k) =
    match r with
    | Ok a => run (k a)
    | Raise e => ([], Raise e)
    end.
Proof. by destruct r. Qed.

Lemma paths_of_app (tr1 tr2 : list event) :
  paths_of (tr1 ++ tr2) = paths_of tr1 ++ paths_of tr2.
Proof. apply omap_app. Qed.

Lemma run_TimeIt {A} desc disable (body : M A) :
  regular body →
  paths_of (run (TimeIt desc disable body)).1 = paths_of (run body).1
  ∧ (run (TimeIt desc disable body)).2 = (run body).2.
Proof.
  intros Hb. unfold TimeIt.
  rewrite run_bind by (intros; regular_tac).
  assert (∀ e, is_diag e = true →
    ∃ evs, run (if disable then ret tt else emit e) = (evs, Ok tt)
           ∧ paths_of evs = []) as Hrep.
  { intros e He. destruct disable; eexists; (split; [reflexivity|]); [done|].
    by destruct e. }
  destruct (Hrep (EvDiag desc) eq_refl) as (evs1 & -> & Hp1).
  destruct (Hrep EvDiagElapsed eq_refl) as (evs2 & Hr2 & Hp2).
  rewrite run_bind by (intros; regular_tac).
  destruct (run body) as [evs [a|e]]; cbn [fst snd].
  - rewrite run_bind by (intros; regular_tac). rewrite Hr2. cbn.
    by rewrite !paths_of_app, Hp1, Hp2, app_nil_r.
  - by rewrite !paths_of_app, Hp1.
Qed.

Lemma run_read_csv_paths w fn header index_col :
  paths_of (run (pd_read_csv w fn header index_col)).1 = [fn].
Proof.
  unfold pd_read_csv, run, bind, emit, lift, ret.
  destruct (csv_records w fn header); [|done]. by destruct index_col.
Qed.

Lemma run_read_bim_paths w fn : paths_of (run (_read_bim w fn)).1 = [fn].
Proof.
  unfold _read_bim. rewrite run_bind by (intros; regular_tac).
  pose proof (run_read_csv_paths w fn bim_header []) as Hp.
  destruct (run (pd_read_csv w fn bim_header [])) as [evs [df|e]];
    cbn [fst] in *; [|done].
  rewrite paths_of_app, Hp.
  unfold run, bind, lift, ret.
  repeat match goal with
         | |- context [df_astype_category ?n ?d] =>
             destruct (df_astype_category n d); [|done]
         | |- context [df_set_index ?n ?d] => destruct (df_set_index n d)
         end; done.
Qed.

Lemma run_read_fam_paths w fn : paths_of (run (_read_fam w fn)).1 = [fn].
Proof.
  unfold _read_fam. rewrite run_bind by (intros; regular_tac).
  pose proof (run_read_csv_paths w fn fam_header ["fid"; "iid"]%string) as Hp.
  destruct (run (pd_read_csv w fn fam_header _)) as [evs [df|e]];
    cbn [fst] in *; [|done].
  rewrite paths_of_app, Hp.
  unfold run, bind, lift, ret.
  destruct (df_astype_category _ df); done.
Qed.

Lemma run_open_paths w fn : paths_of (run (py_open_rb w fn)).1 = [fn].
Proof. unfold py_open_rb, run, bind, emit. by destruct (fs_bytes w fn). Qed.

Lemma run_check_bed_header_paths w fn :
  paths_of (run (_check_bed_header w fn)).1 = [fn].
Proof.
  unfold _check_bed_header. rewrite run_bind by (intros; regular_tac).
  pose proof (run_open_paths w fn) as Hp.
  destruct (run (py_open_rb w fn)) as [evs [f|e]]; cbn [fst] in *; [|done].
  rewrite paths_of_app, Hp. destruct (f_read 2 f) as [arr f'].
  unfold run, bind, lift, ret, raise.
  destruct (bytes_getitem arr 0) as [a0|]; [|done].
  destruct (_ord a0 =? 108); [destruct (bytes_getitem arr 1) as [a1|]|];
    [destruct (negb (_ord a1 =? 27))| |]; done.
Qed.

Lemma run_major_order_paths w fn :
  paths_of (run (_major_order w fn)).1 = [fn].
Proof.
  unfold _major_order. rewrite run_bind by (intros; regular_tac).
  pose proof (run_open_paths w fn) as Hp.
  destruct (run (py_open_rb w fn)) as [evs [f|e]]; cbn [fst] in *; [|done].
  rewrite paths_of_app, Hp. destruct (f_read 1 (f_seek 2 f)) as [arr f'].
  unfold run, bind, lift, ret, raise.
  destruct (bytes_getitem arr 0) as [a0|]; [|done].
  destruct (_ord a0 =? 1); [done|]. by destruct (_ord a0 =? 0).
Qed.

Ltac elem_of_same H :=
  cbn in H; repeat (apply elem_of_cons in H as [->|H]; [done|]);
  by apply elem_of_nil in H.

Lemma run_read_bed_paths w fn nsamples nmarkers :
  (∀ p, p ∈ paths_of (run (_read_bed w fn nsamples nmarkers)).1 →
        _ascii_airlock fn = Ok p)
  ∧ (is_ok (run (_read_bed w fn nsamples nmarkers)).2 = true →
     ∃ bfn, _ascii_airlock fn = Ok bfn
            ∧ paths_of (run (_read_bed w fn nsamples nmarkers)).1
              = [bfn; bfn; bfn]).
Proof.
  unfold _read_bed. rewrite run_bind_lift.
  destruct (_ascii_airlock fn) as [bfn|e]; cbn [fst snd];
    [|split; [by intros p ?%elem_of_nil|done]].
  rewrite run_bind
    by (intros; repeat (apply regular_bind;
          [auto using regular_major_order with regular|intros]);
        unfold read_bed; regular_tac).
  pose proof (run_check_bed_header_paths w bfn) as Hh.
  destruct (run (_check_bed_header w bfn)) as [evh [[]|e]]; cbn [fst snd] in *.
  2: { rewrite Hh. split; [|done]. intros p Hp. elem_of_same Hp. }
  rewrite run_bind by (intros; unfold read_bed; regular_tac).
  pose proof (run_major_order_paths w bfn) as Hm.
  destruct (run (_major_order w bfn)) as [evm [major|e]]; cbn [fst snd] in *.
  2: { rewrite !paths_of_app, Hh, Hm. split; [|done].
       intros p Hp. elem_of_same Hp. }
  assert (∀ nrows ncols,
    paths_of (run (read_bed w bfn nrows ncols)).1 = [bfn]) as Hd by done.
  rewrite !paths_of_app, Hh, Hm, Hd. split.
  - intros p Hp. elem_of_same Hp.
  - intros _. by exists bfn.
Qed.

Lemma read_plink_unfold w (prefix : pystr) verbose :
  let path := plink_path prefix in
  read_plink w (PyStr prefix) verbose =
    (let* bim := TimeIt (format_s "Reading " (path "bim") "...")
                   (negb verbose) (_read_bim w (path "bim")) in
     let* fam := TimeIt (format_s "Reading " (path "fam") "...")
                   (negb verbose) (_read_fam w (path "fam")) in
     let* bed := TimeIt (format_s "Reading " (path "bed") "...")
                   (negb verbose)
                   (_read_bed w (path "bed") (df_shape0 fam) (df_shape0 bim)) in
     ret (bim, fam, bed)).
Proof. reflexivity. Qed.

(** C7: [read_plink] derives its three paths by appending [.bed], [.bim]
    and [.fam] to the prefix; every path a run touches is the [.bim]
    path, the [.fam] path or the [.bed] path in its encoded form; and a
    run that returns has read the [.bim] file, the [.fam] file and then
    the [.bed] file, and nothing else. *)
Theorem read_plink_paths (w : world) (prefix : pystr) (verbose : bool) :
  let path := plink_path prefix in
  let out := run (read_plink w (PyStr prefix) verbose) in
  fn_dict (PyStr prefix) =
    <["fam" := path "fam"]> (<["bim" := path "bim"]>
      (<["bed" := path "bed"]> ∅))
  ∧ (∀ p, p ∈ paths_of out.1 →
          p = path "bim" ∨ p = path "fam"
          ∨ _ascii_airlock (path "bed") = Ok p)
  ∧ (is_ok out.2 = true →
     ∃ bed, _ascii_airlock (path "bed") = Ok bed
            ∧ paths_of out.1 = [path "bim"; path "fam"; bed; bed; bed]).
Proof.
  intros path out. split; [reflexivity|]. subst out.
  rewrite read_plink_unfold. cbv zeta. fold path.
  set (d1 := format_s "Reading " (path "bim") "...").
  set (d2 := format_s "Reading " (path "fam") "...").
  set (d3 := format_s "Reading " (path "bed") "...").
  rewrite run_bind by (intros; regular_tac; auto with regular).
  destruct (run_TimeIt d1 (negb verbose) (_read_bim w (path "bim")))
    as [Hp1 Hr1]; [auto with regular|].
  rewrite run_read_bim_paths in Hp1.
  destruct (run (TimeIt d1 _ _)) as [ev1 [bim|e]]; cbn [fst snd] in *.
  2: { split; [|done]. intros p Hp. rewrite Hp1 in Hp. left. elem_of_same Hp. }
  rewrite run_bind by (intros; regular_tac; auto with regular).
  destruct (run_TimeIt d2 (negb verbose) (_read_fam w (path "fam")))
    as [Hp2 Hr2]; [auto with regular|].
  rewrite run_read_fam_paths in Hp2.
  destruct (run (TimeIt d2 _ _)) as [ev2 [fam|e]]; cbn [fst snd] in *.
  2: { split; [|done]. intros p Hp. rewrite paths_of_app, Hp1, Hp2 in Hp.
       cbn in Hp. apply elem_of_cons in Hp as [->|Hp]; [by left|].
       right; left. elem_of_same Hp. }
  rewrite run_bind by (intros; regular_tac).
  destruct (run_TimeIt d3 (negb verbose)
              (_read_bed w (path "bed") (df_shape0 fam) (df_shape0 bim)))
    as [Hp3 Hr3]; [auto with regular|].
  destruct (run_read_bed_paths w (path "bed") (df_shape0 fam) (df_shape0 bim))
    as [Hin Hok].
  rewrite <- Hp3 in Hin, Hok. rewrite <- Hr3 in Hok.
  destruct (run (TimeIt d3 _ _)) as [ev3 [bed|e]]; cbn [fst snd] in *.
  - rewrite app_nil_r, !paths_of_app, Hp1, Hp2. split.
    + intros p Hp. cbn in Hp.
      apply elem_of_cons in Hp as [->|Hp]; [by left|].
      apply elem_of_cons in Hp as [->|Hp]; [by right; left|].
      right; right. by apply Hin.
    + intros _. destruct (Hok eq_refl) as (b & Hb & ->). by exists b.
  - split; [|done]. rewrite !paths_of_app, Hp1, Hp2. intros p Hp. cbn in Hp.
    apply elem_of_cons in Hp as [->|Hp]; [by left|].
    apply elem_of_cons in Hp as [->|Hp]; [by right; left|].
    right; right. by apply Hin.
Qed.

Lemma read_plink_paths_witness :
  ∃ bed, _ascii_airlock (PyStr (lit "toy.bed")) = Ok bed
         ∧ paths_of (run (read_plink Toy.w (PyStr Toy.prefix) true)).1
           = [Toy.bim; Toy.fam; bed; bed; bed].
Proof.
  exact (proj2 (proj2 (read_plink_paths Toy.w Toy.prefix true)) eq_refl).
Defined.

(** ** The index column of the metadata tables *)

Lemma astype_category_ok name names cols rows p :
  col_pos name cols = Some p →
  df_astype_category name
    {| df_index_names := names; df_columns := cols; df_rows := rows |}
  = Ok {| df_index_names := names;
          df_columns := alter (λ c, (c.1, DCategory)) p cols;
          df_rows := rows |}.
Proof. unfold df_astype_category. cbn [df_columns]. by intros ->. Qed.

Lemma set_index_ok keys names cols rows ps :
  col_positions keys cols = Ok ps →
  df_set_index keys
    {| df_index_names := names; df_columns := cols; df_rows := rows |}
  = Ok {| df_index_names := keys;
          df_columns := drop_at ps cols;
          df_rows := set_index_row ps <$> rows |}.
Proof. unfold df_set_index. cbn [df_columns]. by intros ->. Qed.

Lemma imap_imap {A B C} (f : nat → B → C) (g : nat → A → B) (l : list A) :
  imap f (imap g l) = imap (λ k x, f k (g k x)) l.
Proof.
  revert f g. induction l as [|x l IH]; intros f g; [done|].
  cbn. f_equal. apply IH.
Qed.

Lemma read_bim_rows w fn tr tr' df :
  _read_bim w fn tr = (tr', Ok df) →
  ∃ recs, csv_records w fn bim_header = Ok recs
    ∧ df_columns df = [("snp", DBytes); ("cm", DFloat); ("a0", DCategory);
                       ("a1", DCategory); ("i", DInt)]%string
    ∧ df_rows df =
        merge_sort row_le
          (imap (λ k rec, set_index_row [0; 3]%nat
                   {| r_index := [CInt (Z.of_nat k)];
                      r_cols := rec ++ [CInt (Z.of_nat k)] |}) recs).
Proof.
  unfold _read_bim, pd_read_csv, bind, emit, lift, ret.
  destruct (csv_records w fn bim_header) as [recs|e]; [|done].
  intros H. exists recs. split; [done|].
  erewrite astype_category_ok in H by reflexivity.
  erewrite astype_category_ok in H by reflexivity.
  erewrite astype_category_ok in H by reflexivity.
  unfold df_setitem_range in H. cbn [df_index_names df_columns df_rows] in H.
  erewrite set_index_ok in H by reflexivity.
  injection H as _ <-. split; [reflexivity|].
  cbn [df_sort_index df_rows]. by rewrite imap_imap, fmap_imap.
Qed.

Lemma read_fam_rows w fn tr tr' df :
  _read_fam w fn tr = (tr', Ok df) →
  ∃ recs, csv_records w fn fam_header = Ok recs
    ∧ df_columns df = [("father", DStr); ("mother", DStr);
                       ("gender", DCategory); ("trait", DStr);
                       ("i", DInt)]%string
    ∧ df_rows df =
        merge_sort row_le
          (imap (λ k rec, append_cell (CInt (Z.of_nat k))
                   (set_index_row [0; 1]%nat
                      {| r_index := [CInt (Z.of_nat k)]; r_cols := rec |}))
                recs).
Proof.
  unfold _read_fam, pd_read_csv, bind, emit, lift, ret.
  destruct (csv_records w fn fam_header) as [recs|e]; [|done].
  intros H. exists recs. split; [done|].
  erewrite set_index_ok in H by reflexivity.
  erewrite astype_category_ok in H by reflexivity.
  injection H as _ <-. split; [reflexivity|].
  cbn [df_sort_index df_setitem_range df_rows].
  by rewrite fmap_imap, imap_imap.
Qed.

Lemma six_cells (rec : list cell) :
  length rec = 6%nat → ∃ c0 c1 c2 c3 c4 c5, rec = [c0; c1; c2; c3; c4; c5].
Proof.
  destruct rec as [|c0 [|c1 [|c2 [|c3 [|c4 [|c5 [|c6 rec]]]]]]]; try done.
  intros _. by exists c0, c1, c2, c3, c4, c5.
Qed.

Lemma bim_row_shape (k : cell) c0 c1 c2 c3 c4 c5 idx :
  set_index_row [0; 3]%nat
    {| r_index := idx; r_cols := [c0; c1; c2; c3; c4; c5] ++ [k] |}
  = {| r_index := [c0; c3]; r_cols := [c1; c2; c4; c5; k] |}.
Proof. by vm_compute. Qed.

Lemma fam_row_shape (k : cell) c0 c1 c2 c3 c4 c5 idx :
  append_cell k
    (set_index_row [0; 1]%nat
       {| r_index := idx; r_cols := [c0; c1; c2; c3; c4; c5] |})
  = {| r_index := [c0; c1]; r_cols := [c2; c3; c4; c5; k] |}.
Proof. by vm_compute. Qed.

Lemma omap_imap_seq {A} (f : row → option cell) (T : nat → A → row)
    (g : nat → cell) (l : list A) :
  (∀ k x, l !! k = Some x → f (T k x) = Some (g k)) →
  omap f (imap T l) = g <$> seq 0 (length l).
Proof.
  rewrite <- (imap_seq_0 l g). revert T g.
  induction l as [|x l IH]; intros T g H; [done|].
  cbn. rewrite (H 0%nat x eq_refl). f_equal.
  apply (IH (T ∘ S) (g ∘ S)). intros k y Hk. by apply (H (S k)).
Qed.

(** C6: in the table [_read_bim] returns, and in the one [_read_fam]
    returns, the [i] column is a permutation of [0 .. count-1], and every
    row carries in [i] the position its record has in the file: sorting
    has moved rows, not changed them. *)
Theorem metadata_index_column (w : world) (fn : pyobj) (tr tr' : list event)
    (df : DataFrame) :
  csv_well_formed w →
  (_read_bim w fn tr = (tr', Ok df) →
   ∃ recs, csv_records w fn bim_header = Ok recs
     ∧ df_shape0 df = length recs
     ∧ df_column "i" df ≡ₚ (λ k, CInt (Z.of_nat k)) <$> seq 0 (length recs)
     ∧ ∀ r, r ∈ df_rows df →
         ∃ k c0 c1 c2 c3 c4 c5,
           recs !! k = Some [c0; c1; c2; c3; c4; c5]
           ∧ r = {| r_index := [c0; c3];
                    r_cols := [c1; c2; c4; c5; CInt (Z.of_nat k)] |})
  ∧ (_read_fam w fn tr = (tr', Ok df) →
     ∃ recs, csv_records w fn fam_header = Ok recs
       ∧ df_shape0 df = length recs
       ∧ df_column "i" df ≡ₚ (λ k, CInt (Z.of_nat k)) <$> seq 0 (length recs)
       ∧ ∀ r, r ∈ df_rows df →
           ∃ k c0 c1 c2 c3 c4 c5,
             recs !! k = Some [c0; c1; c2; c3; c4; c5]
             ∧ r = {| r_index := [c0; c1];
                      r_cols := [c2; c3; c4; c5; CInt (Z.of_nat k)] |}).
Proof.
  intros Hwf. split; intros Hrun.
  - destruct (read_bim_rows _ _ _ _ _ Hrun) as (recs & Hcsv & Hcols & Hrows).
    pose proof (Hwf _ _ _ Hcsv) as Hlen. rewrite Forall_lookup in Hlen.
    exists recs. split; [done|].
    unfold df_shape0, df_column. rewrite Hcols, Hrows.
    change (col_pos "i" _) with (Some 4%nat). cbn match.
    rewrite !merge_sort_Permutation. split; [by rewrite length_imap|]. split.
    + erewrite omap_imap_seq; [done|]. intros k rec Hk; cbn beta.
      destruct (six_cells rec (Hlen _ _ Hk)) as (c0&c1&c2&c3&c4&c5&->).
      by rewrite bim_row_shape.
    + intros r Hr. rewrite merge_sort_Permutation in Hr.
      apply elem_of_lookup_imap_1 in Hr as (k & rec & -> & Hk).
      destruct (six_cells rec (Hlen _ _ Hk)) as (c0&c1&c2&c3&c4&c5&->).
      exists k, c0, c1, c2, c3, c4, c5. by rewrite bim_row_shape.
  - destruct (read_fam_rows _ _ _ _ _ Hrun) as (recs & Hcsv & Hcols & Hrows).
    pose proof (Hwf _ _ _ Hcsv) as Hlen. rewrite Forall_lookup in Hlen.
    exists recs. split; [done|].
    unfold df_shape0, df_column. rewrite Hcols, Hrows.
    change (col_pos "i" _) with (Some 4%nat). cbn match.
    rewrite !merge_sort_Permutation. split; [by rewrite length_imap|]. split.
    + erewrite omap_imap_seq; [done|]. intros k rec Hk; cbn beta.
      destruct (six_cells rec (Hlen _ _ Hk)) as (c0&c1&c2&c3&c4&c5&->).
      by rewrite fam_row_shape.
    + intros r Hr. rewrite merge_sort_Permutation in Hr.
      apply elem_of_lookup_imap_1 in Hr as (k & rec & -> & Hk).
      destruct (six_cells rec (Hlen _ _ Hk)) as (c0&c1&c2&c3&c4&c5&->).
      exists k, c0, c1, c2, c3, c4, c5. by rewrite fam_row_shape.
Qed.

Lemma toy_csv_well_formed : csv_well_formed Toy.w.
Proof.
  intros fn header recs. cbn. unfold Toy.csv.
  destruct (decide (length header = 6%nat)) as [->|]; [|done].
  repeat case_decide; intros [= <-]; repeat constructor.
Qed.

Lemma metadata_index_column_witness :
  ∃ recs, csv_records Toy.w Toy.bim bim_header = Ok recs
    ∧ df_shape0 Toy.bim_table = length recs
    ∧ df_column "i" Toy.bim_table
      ≡ₚ (λ k, CInt (Z.of_nat k)) <$> seq 0 (length recs)
    ∧ ∀ r, r ∈ df_rows Toy.bim_table →
        ∃ k c0 c1 c2 c3 c4 c5,
          recs !! k = Some [c0; c1; c2; c3; c4; c5]
          ∧ r = {| r_index := [c0; c3];
                   r_cols := [c1; c2; c4; c5; CInt (Z.of_nat k)] |}.
Proof.
  apply (proj1 (metadata_index_column Toy.w Toy.bim [] [EvReadCsv Toy.bim]
                  Toy.bim_table toy_csv_well_formed)).
  reflexivity.
Defined.

(** ** The codec round trip *)

Lemma pack_unpack_byte (b : byte) :
  pack_codes (call_to_code <$> (code_to_call <$> unpack_byte b)) = [b].
Proof. destruct b; reflexivity. Qed.

Lemma pack_unpack_partial (b : byte) (n : nat) :
  (0 < n < 4)%nat →
  pack_codes (call_to_code <$> (code_to_call <$> take n (unpack_byte b)))
  = [keep_codes n b].
Proof.
  intros Hn.
  destruct n as [|[|[|[|n]]]]; try lia; destruct b; reflexivity.
Qed.

Lemma keep_codes_all (b : byte) : keep_codes 4 b = b.
Proof. destruct b; reflexivity. Qed.

Lemma bytes_per_row_add4 (n : nat) :
  bytes_per_row (4 + n) = S (bytes_per_row n).
Proof.
  unfold bytes_per_row.
  replace (4 + n + 3)%nat with (n + 3 + 1 * 4)%nat by lia.
  rewrite Nat.div_add by lia. lia.
Qed.

Lemma bytes_per_row_small (n : nat) :
  (0 < n < 4)%nat → bytes_per_row n = 1%nat.
Proof.
  intros Hn. destruct n as [|[|[|[|n]]]]; try lia; reflexivity.
Qed.

Lemma bytes_per_row_cover (n : nat) : (n ≤ 4 * bytes_per_row n)%nat.
Proof.
  unfold bytes_per_row.
  pose proof (Nat.div_mod_eq (n + 3) 4).
  pose proof (Nat.mod_upper_bound (n + 3) 4). lia.
Qed.

Lemma length_unpacked (bs : list byte) :
  length (concat (unpack_byte <$> bs)) = (4 * length bs)%nat.
Proof. induction bs as [|b bs IH]; [done|]. cbn in *. lia. Qed.

Lemma length_decode_row (ncols : nat) (bs : list byte) :
  length bs = bytes_per_row ncols → length (decode_row ncols bs) = ncols.
Proof.
  intros Hlen. unfold decode_row.
  rewrite length_fmap, length_take, length_unpacked, Hlen.
  pose proof (bytes_per_row_cover ncols). lia.
Qed.

Lemma pack_codes_four (a b c d : N) (rest : list N) :
  pack_codes (a :: b :: c :: d :: rest) = pack4 a b c d :: pack_codes rest.
Proof. done. Qed.

(** One physical row: decoding and re-encoding clears the padding of the
    row's last byte and changes nothing else. *)
Lemma encode_decode_row (ncols : nat) (bs : list byte) :
  length bs = bytes_per_row ncols →
  pack_codes (call_to_code <$> decode_row ncols bs) = clear_pad_row ncols bs.
Proof.
  revert ncols. induction bs as [|b bs IH]; intros ncols Hlen.
  - unfold decode_row. cbn. by rewrite take_nil.
  - destruct (decide (ncols < 4)%nat) as [Hsmall|Hbig].
    + assert (0 < ncols)%nat as Hpos.
      { destruct ncols; [done|lia]. }
      rewrite bytes_per_row_small in Hlen by lia.
      destruct bs; [|done]. unfold decode_row. cbn [fmap list_fmap concat].
      rewrite app_nil_r, pack_unpack_partial by lia.
      cbn [clear_pad_row]. by rewrite Nat.min_r by lia.
    + destruct (Nat.le_exists_sub 4 ncols) as (n & -> & _); [lia|].
      rewrite (Nat.add_comm n 4) in *.
      rewrite bytes_per_row_add4 in Hlen. injection Hlen as Hlen.
      unfold decode_row. cbn [fmap list_fmap concat].
      rewrite take_app_add' by done.
      rewrite !fmap_app. fold (decode_row n bs).
      pose proof (pack_unpack_byte b) as Hb.
      cbn [unpack_byte fmap list_fmap app] in Hb |- *.
      rewrite pack_codes_four in Hb |- *. injection Hb as ->.
      rewrite IH by done. cbn [clear_pad_row].
      rewrite Nat.min_l, keep_codes_all by lia.
      do 2 f_equal. lia.
Qed.

Lemma length_decode_rows (nrows ncols : nat) (payload : list byte) :
  (bytes_per_row ncols * nrows ≤ length payload)%nat →
  length (decode_rows nrows ncols payload) = (nrows * ncols)%nat.
Proof.
  revert payload. induction nrows as [|n IH]; intros payload Hlen; [done|].
  cbn [decode_rows]. rewrite length_app, length_decode_row, IH.
  - lia.
  - rewrite length_drop. lia.
  - rewrite length_take. lia.
Qed.

(** The cells of physical row [r], read off the row-major store. *)
Lemma row_cells (data : list N) (ncols r : nat) (d : N) :
  (r * ncols + ncols ≤ length data)%nat →
  (λ c, nth (r * ncols + c) data d) <$> seq 0 ncols
  = take ncols (drop (r * ncols) data).
Proof.
  intros Hlen. apply list_eq. intros i.
  rewrite list_lookup_fmap.
  destruct (decide (i < ncols)%nat) as [Hi|Hi].
  - rewrite lookup_seq_lt, lookup_take_lt, lookup_drop by done. cbn.
    destruct (lookup_lt_is_Some_2 data (r * ncols + i)) as [x Hx]; [lia|].
    by rewrite Hx, (nth_lookup_Some _ _ _ _ Hx).
  - by rewrite lookup_seq_ge, lookup_take_ge by lia.
Qed.

Lemma encode_store_cons (n ncols : nat) (row rest : list N) :
  length row = ncols →
  encode_store (S n) ncols (row ++ rest)
  = pack_codes (call_to_code <$> row) ++ encode_store n ncols rest.
Proof.
  intros Hrow. unfold encode_store. cbn [seq fmap list_fmap concat].
  rewrite Nat.mul_0_l, drop_0, take_app_length' by done. f_equal.
  rewrite <- fmap_S_seq, <- list_fmap_compose. f_equal.
  apply list_fmap_ext. intros i r _. cbn.
  by rewrite drop_app_add' by done.
Qed.

Lemma encode_store_decode_rows (nrows ncols : nat) (payload : list byte) :
  (bytes_per_row ncols * nrows ≤ length payload)%nat →
  encode_store nrows ncols (decode_rows nrows ncols payload)
  = clear_pad nrows ncols payload.
Proof.
  revert payload. induction nrows as [|n IH]; intros payload Hlen; [done|].
  assert (length (take (bytes_per_row ncols) payload) = bytes_per_row ncols)
    as Htake by (rewrite length_take; lia).
  cbn [decode_rows clear_pad].
  rewrite encode_store_cons by by apply length_decode_row.
  rewrite encode_decode_row by done. f_equal.
  apply IH. rewrite length_drop. lia.
Qed.

Lemma encode_as_store (o : orientation) (ns nm : nat) (data : list N) :
  let g := {| gm_orientation := o; gm_markers := nm; gm_samples := ns;
              gm_store := data |} in
  let '(nrows, ncols) := physical_dims o ns nm in
  length data = (nrows * ncols)%nat →
  encode g = encode_store nrows ncols data.
Proof.
  destruct o; cbn; intros Hlen; unfold encode, encode_store; cbn;
    f_equal; apply list_fmap_ext; intros i r Hr%lookup_seq;
    unfold encode_row, physical_cell, gm_get; cbn;
    do 2 f_equal; apply row_cells; nia.
Qed.

Lemma length_clear_pad_row (ncols : nat) (bs : list byte) :
  length (clear_pad_row ncols bs) = length bs.
Proof. revert ncols. induction bs as [|b bs IH]; intros; cbn; auto. Qed.

Lemma clear_pad_row_exact (ncols : nat) (bs : list byte) :
  (ncols = 4 * length bs)%nat → clear_pad_row ncols bs = bs.
Proof.
  revert ncols. induction bs as [|b bs IH]; intros ncols Hn; [done|].
  cbn [clear_pad_row]. cbn [length] in Hn.
  rewrite Nat.min_l, keep_codes_all by lia. f_equal. apply IH. lia.
Qed.

Lemma clear_pad_exact (nrows ncols : nat) (payload : list byte) :
  (ncols mod 4 = 0)%nat →
  length payload = (bytes_per_row ncols * nrows)%nat →
  clear_pad nrows ncols payload = payload.
Proof.
  intros Hmod. revert payload.
  assert (ncols = 4 * bytes_per_row ncols)%nat as Hbpr.
  { unfold bytes_per_row. pose proof (Nat.div_mod_eq ncols 4).
    pose proof (Nat.div_mod_eq (ncols + 3) 4).
    pose proof (Nat.mod_upper_bound (ncols + 3) 4). lia. }
  induction nrows as [|n IH]; intros payload Hlen.
  - destruct payload; [done|]. cbn in Hlen. lia.
  - cbn [clear_pad]. rewrite clear_pad_row_exact, IH.
    + apply take_drop.
    + rewrite length_drop. lia.
    + rewrite length_take. lia.
Qed.

Lemma lookup_clear_pad_row (ncols : nat) (bs : list byte) (j : nat) :
  clear_pad_row ncols bs !! j
  = keep_codes (min 4 (ncols - 4 * j)) <$> bs !! j.
Proof.
  revert ncols j. induction bs as [|b bs IH]; intros ncols [|j]; try done.
  - cbn. by rewrite Nat.sub_0_r.
  - cbn [clear_pad_row lookup list_lookup]. rewrite IH.
    do 3 f_equal. lia.
Qed.

Lemma lookup_clear_pad (nrows ncols : nat) (payload : list byte) (r j : nat) :
  (r < nrows)%nat → (j < bytes_per_row ncols)%nat →
  (bytes_per_row ncols * nrows ≤ length payload)%nat →
  clear_pad nrows ncols payload !! (r * bytes_per_row ncols + j)%nat
  = keep_codes (min 4 (ncols - 4 * j))
      <$> payload !! (r * bytes_per_row ncols + j)%nat.
Proof.
  revert payload r. induction nrows as [|n IH]; intros payload r Hr Hj Hlen;
    [lia|].
  cbn [clear_pad]. destruct r as [|r].
  - rewrite lookup_app_l
      by (rewrite length_clear_pad_row, length_take; lia).
    rewrite lookup_clear_pad_row. cbn. by rewrite lookup_take_lt.
  - rewrite lookup_app_r
      by (rewrite length_clear_pad_row, length_take; lia).
    rewrite length_clear_pad_row, length_take.
    replace (S r * bytes_per_row ncols + j
             - bytes_per_row ncols `min` length payload)%nat
      with (r * bytes_per_row ncols + j)%nat by lia.
    rewrite IH by (rewrite ?length_drop; lia).
    rewrite lookup_drop. do 2 f_equal. lia.
Qed.

Lemma keep_codes_code (b : byte) (k i : nat) :
  (i < k ≤ 4)%nat →
  N.land (N.shiftr (Byte.to_N (keep_codes k b)) (2 * N.of_nat i)) 3
  = N.land (N.shiftr (Byte.to_N b) (2 * N.of_nat i)) 3.
Proof.
  intros Hik.
  destruct k as [|[|[|[|[|k]]]]]; try lia;
    destruct i as [|[|[|[|i]]]]; try lia;
    destruct b; reflexivity.
Qed.

(** Clearing the padding leaves the code of every cell where it was. *)
Lemma code_at_clear_pad (nrows ncols : nat) (payload : list byte) (r c : nat) :
  (r < nrows)%nat → (c < ncols)%nat →
  (bytes_per_row ncols * nrows ≤ length payload)%nat →
  code_at ncols (clear_pad nrows ncols payload) r c = code_at ncols payload r c.
Proof.
  intros Hr Hc Hlen. unfold code_at.
  pose proof (bytes_per_row_cover ncols).
  pose proof (Nat.div_mod_eq c 4).
  pose proof (Nat.mod_upper_bound c 4).
  assert (c / 4 < bytes_per_row ncols)%nat by lia.
  rewrite lookup_clear_pad by done.
  destruct (payload !! _) as [b|]; [|done].
  cbn [fmap option_fmap option_map mbind option_bind].
  by rewrite keep_codes_code by lia.
Qed.

(** C4: a payload that holds the expected [bytes_per_row * nrows] bytes
    decodes, in either orientation, to a matrix whose re-encoding through
    the inverse mapping is the payload with its row-padding bits cleared
    (and its excess, if any, dropped): the code of every cell is the
    payload's; and where the column count is a multiple of four and the
    payload has the expected length, there is no padding and the bytes
    are the payload's own. *)
Theorem decode_encode_round_trip (o : orientation) (num_samples num_markers : nat)
    (payload : list byte) :
  let nrows := (physical_dims o num_samples num_markers).1 in
  let ncols := (physical_dims o num_samples num_markers).2 in
  (bytes_per_row ncols * nrows ≤ length payload)%nat →
  ∃ g, decode o num_samples num_markers payload = Ok g
       ∧ encode g = clear_pad nrows ncols payload
       ∧ (∀ r c, (r < nrows)%nat → (c < ncols)%nat →
            code_at ncols (encode g) r c = code_at ncols payload r c)
       ∧ ((ncols mod 4 = 0)%nat →
          length payload = (bytes_per_row ncols * nrows)%nat →
          encode g = payload).
Proof.
  intros nrows ncols Hlen.
  cut (∃ g, decode o num_samples num_markers payload = Ok g
            ∧ encode g = clear_pad nrows ncols payload).
  { intros (g & Hg & Henc). exists g. rewrite Henc.
    split; [done|]. split; [done|]. split.
    - intros r c Hr Hc. by apply code_at_clear_pad.
    - apply clear_pad_exact. }
  revert Hlen. unfold decode. intros Hlen.
  destruct (physical_dims o num_samples num_markers) as [nr nc] eqn:Hdims.
  cbn in nrows, ncols. subst nrows ncols.
  unfold decode_physical.
  destruct (Nat.ltb_spec (length payload) (bytes_per_row nc * nr)); [lia|].
  cbn [rbind nd_data]. eexists. split; [reflexivity|].
  pose proof (encode_as_store o num_samples num_markers
                (decode_rows nr nc payload)) as Henc.
  cbv zeta in Henc. rewrite Hdims in Henc.
  rewrite Henc by by apply length_decode_rows.
  by apply encode_store_decode_rows.
Qed.

Lemma decode_encode_round_trip_witness :
  ∃ g, decode SnpMajor 2 3 Toy.payload = Ok g
       ∧ encode g = ["008"; "011"; "002"]%byte.
Proof.
  destruct (decode_encode_round_trip SnpMajor 2 3 Toy.payload)
    as (g & Hg & Henc & _); [cbn; lia|].
  exists g. split; [exact Hg|]. rewrite Henc. reflexivity.
Defined.

(** * Further properties of the module *)

(** ** Reading the header of a .bed file *)

Lemma major_order_short_run (w : world) (fn : pyobj) (data : list byte)
    (tr : list event) :
  fs_bytes w fn = Some data → (length data < 3)%nat →
  _major_order w fn tr = (tr ++ [EvOpen fn], Raise IndexError).
Proof.
  intros Hfs Hlen. unfold _major_order.
  rewrite (bind_ok _ _ _ _ _ (py_open_rb_found _ _ _ _ Hfs)).
  destruct data as [|b0 [|b1 [|b2 data]]]; [done..|cbn in Hlen; lia].
Qed.

(** X1: on a file of fewer than three bytes [_major_order] finds no
    orientation byte: [f.read(1)] after [f.seek(2)] is empty and
    indexing it raises IndexError, not the ValueError of an unknown
    layout. *)
Theorem major_order_short_file (w : world) (fn : pyobj) (data : list byte)
    (tr : list event) :
  fs_bytes w fn = Some data →
  (length data < 3)%nat →
  _major_order w fn tr = (tr ++ [EvOpen fn], Raise IndexError).
Proof. apply major_order_short_run. Qed.

Lemma major_order_short_file_witness :
  run (_major_order (Toy.world_with ["108"; "027"]%byte) Toy.bed)
  = ([EvOpen Toy.bed], Raise IndexError).
Proof.
  apply (major_order_short_file (Toy.world_with ["108"; "027"]%byte) Toy.bed
           ["108"; "027"]%byte [] eq_refl).
  cbn. lia.
Defined.

Lemma bind_raise {A B} (m : M A) (k : A → M B) tr tr' e :
  m tr = (tr', Raise e) → bind m k tr = (tr', Raise e).
Proof. unfold bind. by intros ->. Qed.

Lemma open_missing_run (w : world) (fn : pyobj) (tr : list event) :
  fs_bytes w fn = None →
  py_open_rb w fn tr = (tr ++ [EvOpen fn], Raise (FileNotFoundError fn)).
Proof. intros H. unfold py_open_rb, bind, emit, raise. by rewrite H. Qed.

(** [_read_bed] behind the airlock: the header check, then the
    orientation, then the decoder. *)
Lemma read_bed_steps (w : world) (fn bfn : pyobj) (nsamples nmarkers : nat)
    (tr : list event) :
  _ascii_airlock fn = Ok bfn →
  _read_bed w fn nsamples nmarkers tr =
    match _check_bed_header w bfn tr with
    | (tr1, Raise e) => (tr1, Raise e)
    | (tr1, Ok _) =>
        match _major_order w bfn tr1 with
        | (tr2, Raise e) => (tr2, Raise e)
        | (tr2, Ok major) =>
            read_bed w bfn
              (if decide (major = lit "snp") then nmarkers else nsamples)
              (if decide (major = lit "individual") then nmarkers else nsamples)
              tr2
        end
    end.
Proof.
  intros Hair. unfold _read_bed.
  rewrite (bind_ok (lift (_ascii_airlock fn)) _ tr tr bfn)
    by (unfold lift; by rewrite Hair).
  unfold bind at 1. destruct (_check_bed_header w bfn tr) as [tr1 [[]|e]]; [|done].
  unfold bind at 1. by destruct (_major_order w bfn tr1) as [tr2 [major|e]].
Qed.

(** X2: when the first two bytes of the file are not the magic pair,
    [_read_bed] raises the ValueError of the header check after a single
    [open]: the orientation byte is not read and the decoder is not
    called.  The message shows the path as the airlock left it, a bytes
    object, also when the caller passed a str. *)
Theorem read_bed_bad_magic (w : world) (fn bfn : pyobj)
    (nsamples nmarkers : nat) (b0 b1 : byte) (rest : list byte)
    (tr : list event) :
  _ascii_airlock fn = Ok bfn →
  fs_bytes w bfn = Some (b0 :: b1 :: rest) →
  (Byte.to_N b0, Byte.to_N b1) ≠ (0x6C, 0x1B) →
  _read_bed w fn nsamples nmarkers tr =
    (tr ++ [EvOpen bfn],
     Raise (ValueError (format_s "Invalid BED file: " bfn "."))).
Proof.
  intros Hair Hfs Hmagic. rewrite (read_bed_steps _ _ _ _ _ _ Hair).
  rewrite (check_bed_header_run _ _ _ _ _ _ Hfs). by rewrite decide_False.
Qed.

Lemma read_bed_bad_magic_witness :
  run (_read_bed (Toy.world_with ["108"; "028"; "007"]%byte)
         (PyStr (lit "toy.bed")) 2 3)
  = ([EvOpen Toy.bed],
     Raise (ValueError (lit "Invalid BED file: b'toy.bed'."))).
Proof.
  apply (read_bed_bad_magic (Toy.world_with ["108"; "028"; "007"]%byte)
           (PyStr (lit "toy.bed")) Toy.bed 2 3 "108" "028" ["007"%byte] []
           eq_refl eq_refl).
  discriminate.
Defined.

(** X3: behind a valid magic, an orientation byte other than 0 and 1
    makes [_read_bed] raise the layout ValueError after the file was
    opened twice; the decoder is not called. *)
Theorem read_bed_bad_orientation (w : world) (fn bfn : pyobj)
    (nsamples nmarkers : nat) (b2 : byte) (rest : list byte)
    (tr : list event) :
  _ascii_airlock fn = Ok bfn →
  fs_bytes w bfn = Some ("108"%byte :: "027"%byte :: b2 :: rest) →
  Byte.to_N b2 ≠ 0 → Byte.to_N b2 ≠ 1 →
  _read_bed w fn nsamples nmarkers tr =
    (tr ++ [EvOpen bfn; EvOpen bfn],
     Raise (ValueError (lit "Couldn't understand matrix layout."))).
Proof.
  intros Hair Hfs H0 H1. rewrite (read_bed_steps _ _ _ _ _ _ Hair).
  rewrite (check_bed_header_run _ _ _ _ _ _ Hfs). cbn [decide].
  rewrite decide_True by done.
  rewrite (major_order_run _ _ _ _ _ _ _ Hfs).
  rewrite !decide_False by done. by rewrite <- app_assoc.
Qed.

Lemma read_bed_bad_orientation_witness :
  run (_read_bed (Toy.world_with (Toy.bed_bytes "002")) Toy.bed 2 3)
  = ([EvOpen Toy.bed; EvOpen Toy.bed],
     Raise (ValueError (lit "Couldn't understand matrix layout."))).
Proof.
  apply (read_bed_bad_orientation (Toy.world_with (Toy.bed_bytes "002"))
           Toy.bed Toy.bed 2 3 "002" Toy.payload [] eq_refl eq_refl);
    discriminate.
Defined.

Lemma check_bed_header_inv (w : world) (fn : pyobj) (tr : list event) :
  ∃ r, _check_bed_header w fn tr = (tr ++ [EvOpen fn], r)
       ∧ (is_ok r = true →
          ∃ b0 b1 rest, fs_bytes w fn = Some (b0 :: b1 :: rest)
                        ∧ Byte.to_N b0 = 0x6C ∧ Byte.to_N b1 = 0x1B).
Proof.
  destruct (fs_bytes w fn) as [data|] eqn:Hfs.
  - destruct data as [|b0 [|b1 rest]].
    + exists (Raise IndexError). split; [|done]. unfold _check_bed_header.
      by rewrite (bind_ok _ _ _ _ _ (py_open_rb_found _ _ _ _ Hfs)).
    + unfold _check_bed_header.
      rewrite (bind_ok _ _ _ _ _ (py_open_rb_found _ _ _ _ Hfs)).
      cbn [f_read f_data f_pos drop take]. unfold bind, lift, ret, raise, _ord.
      cbn [bytes_getitem lookup list_lookup].
      destruct (Byte.to_N b0 =? 108); eexists; (split; [reflexivity|done]).
    + eexists. split; [exact (check_bed_header_run w fn b0 b1 rest tr Hfs)|].
      case_decide as Hm; [|done]. injection Hm as H0 H1. intros _.
      by exists b0, b1, rest.
  - exists (Raise (FileNotFoundError fn)). split; [|done].
    unfold _check_bed_header.
    by rewrite (bind_raise _ _ _ _ _ (open_missing_run _ _ _ Hfs)).
Qed.

Lemma major_order_inv (w : world) (fn : pyobj) (tr : list event) :
  ∃ r, _major_order w fn tr = (tr ++ [EvOpen fn], r)
       ∧ ∀ major, r = Ok major →
           ∃ b0 b1 b2 rest, fs_bytes w fn = Some (b0 :: b1 :: b2 :: rest)
             ∧ (Byte.to_N b2 = 1 ∧ major = lit "snp"
                ∨ Byte.to_N b2 = 0 ∧ major = lit "individual").
Proof.
  destruct (fs_bytes w fn) as [data|] eqn:Hfs.
  - destruct data as [|b0 [|b1 [|b2 rest]]];
      try (exists (Raise IndexError); split;
           [apply (major_order_short_run _ _ _ _ Hfs); cbn; lia|done]).
    eexists. split; [exact (major_order_run w fn b0 b1 b2 rest tr Hfs)|].
    intros major. repeat case_decide; intros [= <-];
      exists b0, b1, b2, rest; (split; [done|]); auto.
  - exists (Raise (FileNotFoundError fn)). split; [|done].
    unfold _major_order.
    by rewrite (bind_raise _ _ _ _ _ (open_missing_run _ _ _ Hfs)).
Qed.

Ltac elem_of_absurd H :=
  cbn in H; repeat (apply elem_of_cons in H as [H|H]; [done|]);
  by apply elem_of_nil in H.

(** X4: [_read_bed] calls the decoder only on a checked header: a call
    [read_bed(p, nrows, ncols)] in its trace means that [p] is the
    airlocked path, that the file starts with the magic pair, and that
    its third byte is 1 with [(nrows, ncols) = (nmarkers, nsamples)] or 0
    with [(nrows, ncols) = (nsamples, nmarkers)]. *)
Theorem read_bed_decoder_call (w : world) (fn p : pyobj)
    (nsamples nmarkers nrows ncols : nat) :
  EvReadBed p nrows ncols ∈ (run (_read_bed w fn nsamples nmarkers)).1 →
  _ascii_airlock fn = Ok p
  ∧ ∃ b0 b1 b2 rest,
      fs_bytes w p = Some (b0 :: b1 :: b2 :: rest)
      ∧ Byte.to_N b0 = 0x6C ∧ Byte.to_N b1 = 0x1B
      ∧ (Byte.to_N b2 = 1 ∧ nrows = nmarkers ∧ ncols = nsamples
         ∨ Byte.to_N b2 = 0 ∧ nrows = nsamples ∧ ncols = nmarkers).
Proof.
  unfold run. destruct (_ascii_airlock fn) as [bfn|e] eqn:Hair.
  2: { unfold _read_bed, bind, lift. rewrite Hair. by intros ?%elem_of_nil. }
  rewrite (read_bed_steps _ _ _ _ _ _ Hair).
  destruct (check_bed_header_inv w bfn []) as (r1 & -> & Hhdr).
  destruct r1 as [[]|e1]; cbn [app].
  2: { intros Hin. elem_of_absurd Hin. }
  destruct (Hhdr eq_refl) as (b0 & b1 & rest & Hfs & Hb0 & Hb1).
  destruct (major_order_inv w bfn [EvOpen bfn]) as (r2 & -> & Hmaj).
  destruct r2 as [major|e2]; cbn [app].
  2: { intros Hin. elem_of_absurd Hin. }
  destruct (Hmaj major eq_refl) as (c0 & c1 & b2 & rest' & Hfs' & Hb2).
  rewrite Hfs in Hfs'. injection Hfs' as <- <- ->.
  unfold read_bed, bind, emit, lift. cbn [app fst].
  intros Hin. cbn in Hin.
  apply elem_of_cons in Hin as [Hin|Hin]; [done|].
  apply elem_of_cons in Hin as [Hin|Hin]; [done|].
  apply elem_of_cons in Hin as [Hin|Hin]; [|by apply elem_of_nil in Hin].
  injection Hin as -> Hr Hc. split; [done|].
  exists b0, b1, b2, rest'. split; [done|]. split; [done|]. split; [done|].
  destruct Hb2 as [[Hb2 ->]|[Hb2 ->]]; [left|right]; subst; by vm_compute.
Qed.

Lemma read_bed_decoder_call_witness :
  _ascii_airlock (PyStr (lit "toy.bed")) = Ok Toy.bed
  ∧ ∃ b0 b1 b2 rest,
      fs_bytes Toy.w Toy.bed = Some (b0 :: b1 :: b2 :: rest)
      ∧ Byte.to_N b0 = 0x6C ∧ Byte.to_N b1 = 0x1B
      ∧ (Byte.to_N b2 = 1 ∧ 3%nat = 3%nat ∧ 2%nat = 2%nat
         ∨ Byte.to_N b2 = 0 ∧ 3%nat = 2%nat ∧ 2%nat = 3%nat).
Proof.
  apply (read_bed_decoder_call Toy.w (PyStr (lit "toy.bed")) Toy.bed 2 3 3 2).
  vm_compute. do 2 right. left.
Defined.

(** X5: [_read_bed] treats a str path and the bytes it encodes to alike,
    and a str that cannot be encoded makes it raise the encoder's
    exception before any file is opened. *)
Theorem read_bed_path_encoding (w : world) (fn : pyobj)
    (nsamples nmarkers : nat) (tr : list event) :
  (∀ bfn, _ascii_airlock fn = Ok bfn →
     _read_bed w fn nsamples nmarkers tr = _read_bed w bfn nsamples nmarkers tr)
  ∧ (∀ e, _ascii_airlock fn = Raise e →
       _read_bed w fn nsamples nmarkers tr = (tr, Raise e)).
Proof.
  split.
  - intros bfn Hair. rewrite (read_bed_steps _ _ _ _ _ _ Hair).
    symmetry. apply read_bed_steps.
    destruct fn as [s|b]; cbn in Hair.
    + destruct (str_encode s) as [b|e]; cbn in Hair; [|done].
      by injection Hair as <-.
    + by injection Hair as <-.
  - intros e Hair. unfold _read_bed, bind, lift. by rewrite Hair.
Qed.

Lemma read_bed_path_encoding_witness :
  run (_read_bed Toy.w (PyStr (lit "toy.bed")) 2 3)
  = run (_read_bed Toy.w Toy.bed 2 3)
  ∧ run (_read_bed Toy.w (PyStr [0x74; 0xDC80]) 2 3)
    = ([], Raise (UnicodeEncodeError 1)).
Proof.
  split.
  - exact (proj1 (read_bed_path_encoding Toy.w (PyStr (lit "toy.bed")) 2 3 [])
             Toy.bed eq_refl).
  - exact (proj2 (read_bed_path_encoding Toy.w (PyStr [0x74; 0xDC80]) 2 3 [])
             (UnicodeEncodeError 1) eq_refl).
Defined.

(** ** The three reads of [read_plink] *)

Lemma read_plink_unfold_any w (file_prefix : pyobj) verbose :
  read_plink w file_prefix verbose =
    (let* bim := TimeIt (format_s "Reading "
                           (plink_path (py_str file_prefix) "bim") "...")
                   (negb verbose)
                   (_read_bim w (plink_path (py_str file_prefix) "bim")) in
     let* fam := TimeIt (format_s "Reading "
                           (plink_path (py_str file_prefix) "fam") "...")
                   (negb verbose)
                   (_read_fam w (plink_path (py_str file_prefix) "fam")) in
     let* bed := TimeIt (format_s "Reading "
                           (plink_path (py_str file_prefix) "bed") "...")
                   (negb verbose)
                   (_read_bed w (plink_path (py_str file_prefix) "bed")
                      (df_shape0 fam) (df_shape0 bim)) in
     ret (bim, fam, bed)).
Proof. reflexivity. Qed.

Lemma read_plink_outcome w (file_prefix : pyobj) verbose :
  let bim := plink_path (py_str file_prefix) "bim" in
  let fam := plink_path (py_str file_prefix) "fam" in
  let bed := plink_path (py_str file_prefix) "bed" in
  (run (read_plink w file_prefix verbose)).2 =
    match (run (_read_bim w bim)).2 with
    | Raise e => Raise e
    | Ok tb =>
        match (run (_read_fam w fam)).2 with
        | Raise e => Raise e
        | Ok tf =>
            match (run (_read_bed w bed (df_shape0 tf) (df_shape0 tb))).2 with
            | Raise e => Raise e
            | Ok a => Ok (tb, tf, a)
            end
        end
    end
  ∧ paths_of (run (read_plink w file_prefix verbose)).1 =
      bim ::
      match (run (_read_bim w bim)).2 with
      | Raise _ => []
      | Ok tb =>
          fam ::
          match (run (_read_fam w fam)).2 with
          | Raise _ => []
          | Ok tf =>
              paths_of (run (_read_bed w bed (df_shape0 tf) (df_shape0 tb))).1
          end
      end.
Proof.
  intros bim fam bed. rewrite read_plink_unfold_any. fold bim fam bed.
  set (d1 := format_s "Reading " bim "...").
  set (d2 := format_s "Reading " fam "...").
  set (d3 := format_s "Reading " bed "...").
  rewrite run_bind by (intros; regular_tac; auto with regular).
  destruct (run_TimeIt d1 (negb verbose) (_read_bim w bim))
    as [Hp1 Hr1]; [auto with regular|].
  rewrite run_read_bim_paths in Hp1. rewrite <- Hr1.
  destruct (run (TimeIt d1 _ _)) as [ev1 [tb|e]]; cbn [fst snd] in *;
    [|by rewrite Hp1].
  rewrite run_bind by (intros; regular_tac; auto with regular).
  destruct (run_TimeIt d2 (negb verbose) (_read_fam w fam))
    as [Hp2 Hr2]; [auto with regular|].
  rewrite run_read_fam_paths in Hp2. rewrite <- Hr2.
  destruct (run (TimeIt d2 _ _)) as [ev2 [tf|e]]; cbn [fst snd] in *;
    [|by rewrite paths_of_app, Hp1, Hp2].
  rewrite run_bind by (intros; regular_tac).
  destruct (run_TimeIt d3 (negb verbose)
              (_read_bed w bed (df_shape0 tf) (df_shape0 tb)))
    as [Hp3 Hr3]; [auto with regular|].
  rewrite <- Hp3, <- Hr3.
  destruct (run (TimeIt d3 _ _)) as [ev3 [a|e]]; cbn [fst snd] in *;
    by rewrite ?app_nil_r, !paths_of_app, Hp1, Hp2.
Qed.


Lemma run_read_bed_paths_prefix w fn nsamples nmarkers :
  paths_of (run (_read_bed w fn nsamples nmarkers)).1
  `prefix_of` match _ascii_airlock fn with
              | Ok b => [b; b; b]
              | Raise _ => []
              end.
Proof.
  unfold run. destruct (_ascii_airlock fn) as [bfn|e] eqn:Hair.
  2: { unfold _read_bed, bind, lift. by rewrite Hair. }
  rewrite (read_bed_steps _ _ _ _ _ _ Hair).
  destruct (check_bed_header_inv w bfn []) as (r1 & -> & _).
  destruct r1 as [[]|e1]; cbn [app fst]; [|by exists [bfn; bfn]].
  destruct (major_order_inv w bfn [EvOpen bfn]) as (r2 & -> & _).
  destruct r2 as [major|e2]; cbn [app fst]; [|by exists [bfn]].
  by exists [].
Qed.

(** X7: [read_plink] touches its files in a fixed order and stops at the
    first failure: the paths of a run are an initial part of the .bim
    path, the .fam path and three times the encoded .bed path; the .bim
    file is always the first; when reading the .bim file raises nothing
    else is touched, and when reading the .fam file raises the .bed file
    is not touched. *)
Theorem read_plink_read_order (w : world) (file_prefix : pyobj)
    (verbose : bool) :
  let bim := plink_path (py_str file_prefix) "bim" in
  let fam := plink_path (py_str file_prefix) "fam" in
  let bed := plink_path (py_str file_prefix) "bed" in
  let paths := paths_of (run (read_plink w file_prefix verbose)).1 in
  paths `prefix_of` [bim; fam] ++ match _ascii_airlock bed with
                                  | Ok b => [b; b; b]
                                  | Raise _ => []
                                  end
  ∧ (∃ rest, paths = bim :: rest)
  ∧ (is_ok (run (_read_bim w bim)).2 = false → paths = [bim])
  ∧ (is_ok (run (_read_bim w bim)).2 = true →
     is_ok (run (_read_fam w fam)).2 = false → paths = [bim; fam]).
Proof.
  intros bim fam bed paths. subst paths.
  destruct (read_plink_outcome w file_prefix verbose) as [_ ->].
  fold bim fam bed.
  destruct (run (_read_bim w bim)).2 as [tb|e1].
  - destruct (run (_read_fam w fam)).2 as [tf|e2].
    + split; [|split; [by eexists|done]].
      do 2 apply prefix_cons. apply run_read_bed_paths_prefix.
    + split; [|split; [by eexists|done]].
      do 2 apply prefix_cons. apply prefix_nil.
  - split; [|split; [by eexists|done]].
    apply prefix_cons, prefix_nil.
Qed.

Lemma read_plink_read_order_witness :
  paths_of (run (read_plink Toy.w (PyStr (lit "none")) true)).1
  = [PyStr (lit "none.bim")].
Proof.
  exact (proj1 (proj2 (proj2
           (read_plink_read_order Toy.w (PyStr (lit "none")) true))) eq_refl).
Defined.

(** ** The metadata readers *)

Lemma read_bim_frame w fn tr recs :
  csv_records w fn bim_header = Ok recs →
  _read_bim w fn tr =
    (tr ++ [EvReadCsv fn],
     Ok {| df_index_names := ["chrom"; "pos"]%string;
           df_columns := [("snp", DBytes); ("cm", DFloat); ("a0", DCategory);
                          ("a1", DCategory); ("i", DInt)]%string;
           df_rows :=
             merge_sort row_le
               (imap (λ k rec, set_index_row [0; 3]%nat
                        {| r_index := [CInt (Z.of_nat k)];
                           r_cols := rec ++ [CInt (Z.of_nat k)] |}) recs) |}).
Proof.
  intros Hcsv. unfold _read_bim, pd_read_csv, bind, emit, lift, ret.
  rewrite Hcsv.
  do 3 (erewrite astype_category_ok by reflexivity).
  unfold df_setitem_range. cbn [df_index_names df_columns df_rows].
  erewrite set_index_ok by reflexivity.
  unfold df_sort_index. cbn [df_index_names df_columns df_rows].
  by rewrite imap_imap, fmap_imap.
Qed.

Lemma read_fam_frame w fn tr recs :
  csv_records w fn fam_header = Ok recs →
  _read_fam w fn tr =
    (tr ++ [EvReadCsv fn],
     Ok {| df_index_names := ["fid"; "iid"]%string;
           df_columns := [("father", DStr); ("mother", DStr);
                          ("gender", DCategory); ("trait", DStr);
                          ("i", DInt)]%string;
           df_rows :=
             merge_sort row_le
               (imap (λ k rec, append_cell (CInt (Z.of_nat k))
                        (set_index_row [0; 1]%nat
                           {| r_index := [CInt (Z.of_nat k)];
                              r_cols := rec |})) recs) |}).
Proof.
  intros Hcsv. unfold _read_fam, pd_read_csv, bind, emit, lift, ret.
  rewrite Hcsv.
  erewrite set_index_ok by reflexivity.
  erewrite astype_category_ok by reflexivity.
  unfold df_sort_index, df_setitem_range.
  cbn [df_index_names df_columns df_rows].
  by rewrite fmap_imap, imap_imap.
Qed.

Lemma read_bim_parse_error w fn tr e :
  csv_records w fn bim_header = Raise e →
  _read_bim w fn tr = (tr ++ [EvReadCsv fn], Raise e).
Proof.
  intros Hcsv. unfold _read_bim, pd_read_csv, bind, emit, lift.
  by rewrite Hcsv.
Qed.

Lemma read_fam_parse_error w fn tr e :
  csv_records w fn fam_header = Raise e →
  _read_fam w fn tr = (tr ++ [EvReadCsv fn], Raise e).
Proof.
  intros Hcsv. unfold _read_fam, pd_read_csv, bind, emit, lift.
  by rewrite Hcsv.
Qed.

(** X8: [_read_bim] and [_read_fam] fail exactly when the parse of
    their file fails, and then with the parser's exception; on a parse
    that succeeds they return a table with one row per record: none of
    the column operations that follow the parse can raise, and none
    drops or adds a row. *)
Theorem metadata_reader_outcome (w : world) (fn : pyobj) (tr : list event) :
  (∀ e, csv_records w fn bim_header = Raise e →
        _read_bim w fn tr = (tr ++ [EvReadCsv fn], Raise e))
  ∧ (∀ recs, csv_records w fn bim_header = Ok recs →
       ∃ df, _read_bim w fn tr = (tr ++ [EvReadCsv fn], Ok df)
             ∧ df_shape0 df = length recs)
  ∧ (∀ e, csv_records w fn fam_header = Raise e →
          _read_fam w fn tr = (tr ++ [EvReadCsv fn], Raise e))
  ∧ (∀ recs, csv_records w fn fam_header = Ok recs →
       ∃ df, _read_fam w fn tr = (tr ++ [EvReadCsv fn], Ok df)
             ∧ df_shape0 df = length recs).
Proof.
  split; [intros e; apply read_bim_parse_error|].
  split.
  { intros recs Hcsv. eexists. split; [by apply read_bim_frame|].
    unfold df_shape0. cbn [df_rows].
    by rewrite merge_sort_Permutation, length_imap. }
  split; [intros e; apply read_fam_parse_error|].
  intros recs Hcsv. eexists. split; [by apply read_fam_frame|].
  unfold df_shape0. cbn [df_rows].
  by rewrite merge_sort_Permutation, length_imap.
Qed.

Lemma metadata_reader_outcome_witness :
  (∃ df, run (_read_bim Toy.w Toy.bim) = ([EvReadCsv Toy.bim], Ok df)
         ∧ df_shape0 df = 3%nat)
  ∧ run (_read_fam Toy.w (PyStr (lit "none.fam")))
    = ([EvReadCsv (PyStr (lit "none.fam"))],
       Raise (FileNotFoundError (PyStr (lit "none.fam")))).
Proof.
  split.
  - exact (proj1 (proj2 (metadata_reader_outcome Toy.w Toy.bim []))
             Toy.bim_records eq_refl).
  - exact (proj1 (proj2 (proj2
             (metadata_reader_outcome Toy.w (PyStr (lit "none.fam")) [])))
             (FileNotFoundError (PyStr (lit "none.fam"))) eq_refl).
Defined.

Lemma read_bim_inv w fn tr tr' df :
  _read_bim w fn tr = (tr', Ok df) →
  ∃ recs, csv_records w fn bim_header = Ok recs.
Proof.
  destruct (csv_records w fn bim_header) as [recs|e] eqn:Hcsv; [by eexists|].
  by rewrite (read_bim_parse_error _ _ _ _ Hcsv).
Qed.

Lemma read_fam_inv w fn tr tr' df :
  _read_fam w fn tr = (tr', Ok df) →
  ∃ recs, csv_records w fn fam_header = Ok recs.
Proof.
  destruct (csv_records w fn fam_header) as [recs|e] eqn:Hcsv; [by eexists|].
  by rewrite (read_fam_parse_error _ _ _ _ Hcsv).
Qed.

(** X9: the layout of the returned tables, as the docstring of
    [read_plink] prints them: the marker table is indexed by
    [(chrom, pos)] and has the columns [snp, cm, a0, a1, i], the allele
    columns categorical; the sample table is indexed by [(fid, iid)] and
    has the columns [father, mother, gender, trait, i], gender
    categorical. *)
Theorem metadata_table_layout (w : world) (fn : pyobj) (tr tr' : list event)
    (df : DataFrame) :
  (_read_bim w fn tr = (tr', Ok df) →
   df_index_names df = ["chrom"; "pos"]%string
   ∧ df_columns df = [("snp", DBytes); ("cm", DFloat); ("a0", DCategory);
                      ("a1", DCategory); ("i", DInt)]%string)
  ∧ (_read_fam w fn tr = (tr', Ok df) →
     df_index_names df = ["fid"; "iid"]%string
     ∧ df_columns df = [("father", DStr); ("mother", DStr);
                        ("gender", DCategory); ("trait", DStr);
                        ("i", DInt)]%string).
Proof.
  split; intros Hrun.
  - destruct (read_bim_inv _ _ _ _ _ Hrun) as [recs Hcsv].
    rewrite (read_bim_frame _ _ tr _ Hcsv) in Hrun. by injection Hrun as _ <-.
  - destruct (read_fam_inv _ _ _ _ _ Hrun) as [recs Hcsv].
    rewrite (read_fam_frame _ _ tr _ Hcsv) in Hrun. by injection Hrun as _ <-.
Qed.

Lemma metadata_table_layout_witness :
  df_index_names Toy.bim_table = ["chrom"; "pos"]%string
  ∧ df_columns Toy.bim_table
    = [("snp", DBytes); ("cm", DFloat); ("a0", DCategory);
       ("a1", DCategory); ("i", DInt)]%string.
Proof.
  exact (proj1 (metadata_table_layout Toy.w Toy.bim [] [EvReadCsv Toy.bim]
                  Toy.bim_table) eq_refl).
Defined.

Lemma pystr_leb_total (s t : pystr) :
  pystr_leb s t = true ∨ pystr_leb t s = true.
Proof.
  revert t. induction s as [|a s IH]; intros [|b t]; cbn; auto.
  destruct (N.lt_trichotomy a b) as [Hab|[->|Hab]].
  - left. apply orb_true_iff. left. by apply N.ltb_lt.
  - rewrite N.ltb_irrefl, N.eqb_refl. cbn. apply IH.
  - right. apply orb_true_iff. left. by apply N.ltb_lt.
Qed.

Lemma cell_leb_total (c d : cell) : cell_leb c d = true ∨ cell_leb d c = true.
Proof.
  destruct c as [s|x|x], d as [t|y|y]; cbn; auto.
  - apply pystr_leb_total.
  - rewrite !Z.leb_le. lia.
  - rewrite !N.leb_le. lia.
Qed.

Lemma index_leb_total (k l : list cell) :
  index_leb k l = true ∨ index_leb l k = true.
Proof.
  revert l. induction k as [|c k IH]; intros [|d l]; cbn; auto.
  destruct (decide (c = d)) as [->|Hne].
  - rewrite decide_True by done. apply IH.
  - rewrite decide_False by done. apply cell_leb_total.
Qed.

Global Instance row_le_total : Total row_le.
Proof. intros r s. apply index_leb_total. Qed.



(** ** The airlock on ASCII paths *)

Lemma to_N_byte_of_N (c : N) : c < 256 → Byte.to_N (byte_of_N c) = c.
Proof.
  intros Hc. unfold byte_of_N. rewrite N.mod_small by done.
  destruct (Byte.of_N c) as [b|] eqn:Hb.
  - by apply Byte.to_of_N.
  - apply Byte.of_N_None_iff in Hb. lia.
Qed.

Lemma str_encode_from_ascii (pos : nat) (s : pystr) :
  Forall (λ c, c < 128) s →
  str_encode_from pos s = Ok (byte_of_N <$> s).
Proof.
  intros Hs. revert pos. induction Hs as [|c s Hc _ IH]; intros pos; [done|].
  cbn [str_encode_from]. unfold utf8_char.
  destruct (N.ltb_spec c 128); [|lia]. cbn [rbind].
  by rewrite IH.
Qed.

(** X11: on a str of ASCII characters [_ascii_airlock] returns the bytes
    with the same values, one byte per character; it cannot raise. *)
Theorem ascii_airlock_ascii (s : pystr) :
  Forall (λ c, c < 128) s →
  ∃ bs, _ascii_airlock (PyStr s) = Ok (PyBytes bs)
        ∧ Byte.to_N <$> bs = s.
Proof.
  intros Hs. exists (byte_of_N <$> s). split.
  - unfold _ascii_airlock, str_encode.
    by rewrite (str_encode_from_ascii 0 s Hs).
  - rewrite <- list_fmap_compose. rewrite <- (list_fmap_id s) at 2.
    apply list_fmap_ext. intros i c Hc. cbn.
    apply to_N_byte_of_N. rewrite Forall_lookup in Hs.
    specialize (Hs _ _ Hc). cbn in Hs. lia.
Qed.

Lemma ascii_airlock_ascii_witness :
  ∃ bs, _ascii_airlock (PyStr (lit "toy.bed")) = Ok (PyBytes bs)
        ∧ Byte.to_N <$> bs = lit "toy.bed".
Proof.
  apply (ascii_airlock_ascii (lit "toy.bed")).
  repeat constructor.
Defined.

(** ** What the validators accept, and what [read_plink] returns *)

(** X12: the two header functions accept nothing else than what they
    check for.  [_check_bed_header] returns normally exactly when the
    file exists, has at least two bytes and starts with (0x6C, 0x1B);
    [_major_order] returns a value exactly when the file exists and has
    a third byte equal to 1 or 0, and the value is then ['snp'] or
    ['individual'] respectively: no other string is ever returned. *)
Theorem header_functions_accept (w : world) (fn : pyobj) (tr : list event) :
  (is_ok (_check_bed_header w fn tr).2 = true
   ↔ ∃ b0 b1 rest, fs_bytes w fn = Some (b0 :: b1 :: rest)
                   ∧ Byte.to_N b0 = 0x6C ∧ Byte.to_N b1 = 0x1B)
  ∧ (∀ major, (_major_order w fn tr).2 = Ok major
     ↔ ∃ b0 b1 b2 rest, fs_bytes w fn = Some (b0 :: b1 :: b2 :: rest)
         ∧ (Byte.to_N b2 = 1 ∧ major = lit "snp"
            ∨ Byte.to_N b2 = 0 ∧ major = lit "individual")).
Proof.
  split.
  - split.
    + destruct (check_bed_header_inv w fn tr) as (r & -> & Hr). exact Hr.
    + intros (b0 & b1 & rest & Hfs & H0 & H1).
      rewrite (check_bed_header_run _ _ _ _ _ _ Hfs), H0, H1. done.
  - intros major. split.
    + destruct (major_order_inv w fn tr) as (r & -> & Hr). apply Hr.
    + intros (b0 & b1 & b2 & rest & Hfs & Hb2).
      rewrite (major_order_run _ _ _ _ _ _ _ Hfs).
      destruct Hb2 as [[-> ->]|[-> ->]]; done.
Qed.

Lemma read_bed_result_inv (w : world) (fn : pyobj) (nsamples nmarkers : nat)
    (a : ndarray) :
  (run (_read_bed w fn nsamples nmarkers)).2 = Ok a →
  ∃ bfn b0 b1 b2 rest,
    _ascii_airlock fn = Ok bfn
    ∧ fs_bytes w bfn = Some (b0 :: b1 :: b2 :: rest)
    ∧ Byte.to_N b0 = 0x6C ∧ Byte.to_N b1 = 0x1B
    ∧ (Byte.to_N b2 = 1 ∧ native_read_bed w bfn nmarkers nsamples = Ok a
       ∨ Byte.to_N b2 = 0 ∧ native_read_bed w bfn nsamples nmarkers = Ok a).
Proof.
  unfold run. destruct (_ascii_airlock fn) as [bfn|e] eqn:Hair.
  2: { unfold _read_bed, bind, lift. by rewrite Hair. }
  rewrite (read_bed_steps _ _ _ _ _ _ Hair).
  destruct (check_bed_header_inv w bfn []) as (r1 & -> & Hhdr).
  destruct r1 as [[]|e1]; [|done].
  destruct (Hhdr eq_refl) as (b0 & b1 & rest & Hfs & Hb0 & Hb1).
  destruct (major_order_inv w bfn ([] ++ [EvOpen bfn])) as (r2 & -> & Hmaj).
  destruct r2 as [major|e2]; [|done].
  destruct (Hmaj major eq_refl) as (c0 & c1 & b2 & rest' & Hfs' & Hb2).
  rewrite Hfs in Hfs'. injection Hfs' as <- <- ->.
  unfold read_bed, bind, emit, lift. cbn [snd]. intros Ha.
  exists bfn, b0, b1, b2, rest'. do 4 (split; [done|]).
  destruct Hb2 as [[Hb2 ->]|[Hb2 ->]]; [left|right]; (split; [done|]);
    exact Ha.
Qed.

(** X13: the array [read_plink] returns is the decoder's answer, handed
    on unchanged, for the encoded .bed path and the row counts of the
    two tables it returns with it: (markers, samples) when the third
    byte of the file is 1, and (samples, markers) when it is 0, in which
    case nothing in the module transposes the array. *)
Theorem read_plink_returns_decoded (w : world) (file_prefix : pyobj)
    (verbose : bool) (tb tf : DataFrame) (a : ndarray) :
  (run (read_plink w file_prefix verbose)).2 = Ok (tb, tf, a) →
  ∃ bfn b0 b1 b2 rest,
    _ascii_airlock (plink_path (py_str file_prefix) "bed") = Ok bfn
    ∧ fs_bytes w bfn = Some (b0 :: b1 :: b2 :: rest)
    ∧ Byte.to_N b0 = 0x6C ∧ Byte.to_N b1 = 0x1B
    ∧ (Byte.to_N b2 = 1
       ∧ native_read_bed w bfn (df_shape0 tb) (df_shape0 tf) = Ok a
       ∨ Byte.to_N b2 = 0
         ∧ native_read_bed w bfn (df_shape0 tf) (df_shape0 tb) = Ok a).
Proof.
  destruct (read_plink_outcome w file_prefix verbose) as [-> _].
  destruct (run (_read_bim w _)).2 as [tb'|e1]; [|done].
  destruct (run (_read_fam w _)).2 as [tf'|e2]; [|done].
  destruct (run (_read_bed w _ (df_shape0 tf') (df_shape0 tb'))).2
    as [a'|e3] eqn:Hbed; [|done].
  intros [= -> -> ->]. by apply read_bed_result_inv.
Qed.

Lemma read_plink_returns_decoded_witness :
  ∃ bfn b0 b1 b2 rest,
    _ascii_airlock (plink_path (py_str (PyStr Toy.prefix)) "bed") = Ok bfn
    ∧ fs_bytes Toy.w bfn = Some (b0 :: b1 :: b2 :: rest)
    ∧ Byte.to_N b0 = 0x6C ∧ Byte.to_N b1 = 0x1B
    ∧ (Byte.to_N b2 = 1
       ∧ native_read_bed Toy.w bfn 3 2
         = Ok {| nd_rows := 3; nd_cols := 2; nd_data := [2; 1; 0; 1; 1; 2] |}
       ∨ Byte.to_N b2 = 0
         ∧ native_read_bed Toy.w bfn 2 3
           = Ok {| nd_rows := 3; nd_cols := 2; nd_data := [2; 1; 0; 1; 1; 2] |}).
Proof.
  pose proof (read_plink_returns_decoded Toy.w (PyStr Toy.prefix) false
                Toy.bim_table
                {| df_index_names := ["fid"; "iid"]%string;
                   df_columns := [("father", DStr); ("mother", DStr);
                                  ("gender", DCategory); ("trait", DStr);
                                  ("i", DInt)]%string;
                   df_rows :=
                     [ {| r_index := [CText (lit "F1"); CText (lit "I1")];
                          r_cols := [CText (lit "0"); CText (lit "0");
                                     CText (lit "1"); CText (lit "-9");
                                     CInt 1] |};
                       {| r_index := [CText (lit "F2"); CText (lit "I2")];
                          r_cols := [CText (lit "0"); CText (lit "0");
                                     CText (lit "2"); CText (lit "-9");
                                     CInt 0] |} ] |}
                {| nd_rows := 3; nd_cols := 2; nd_data := [2; 1; 0; 1; 1; 2] |}
                eq_refl) as H.
  exact H.
Defined.
